(** * Dimensio: geometry, smart guides, persistence and frame management

    A shallow embedding of the Python sources of Dimensio (a PySide6 overlay
    tool) and the theorems that relate it to its written specification.

    Conventions of the embedding.
    - Python [int] is [Z]; [//] is [Z.div] (floor), [max]/[min] are
      [Z.max]/[Z.min].
    - [QRect], [QPoint] and the size constraints of [QWidget] are part of Qt,
      not of the repository.  They are modelled after the Qt documentation:
      [QRect.right()] is [x + width - 1], [QRect.bottom()] is
      [y + height - 1], [QRect.center()] is the truncated midpoint of the
      corner coordinates, and [QWidget.setGeometry]/[QWidget.resize] force the
      requested size into [minimumSize .. maximumSize].
    - Widgets are Python objects compared by identity; the embedding gives each
      one a [uid] and compares uids.
    - Painting, timers, signals to the sidebar and dialogs do not influence the
      state the theorems talk about; a dialog is recorded as the value returned
      by the operation that shows it. *)

From Stdlib Require Import ZArith Lia List String Ascii Bool DecimalString.
From stdpp Require Import base decidable list gmap strings.

Local Open Scope Z_scope.

(** ** src/config.py *)

Module Config.
Definition MIN_SIZE : Z := 10.
Definition MAX_SIZE : Z := 4000.
Definition MARGIN_RESIZE : Z := 20.
End Config.

(** ** Qt geometry primitives (PySide6.QtCore) *)

Record QPoint := mkQPoint { px : Z; py : Z }.

Record QRect := mkQRect { rx : Z; ry : Z; rwidth : Z; rheight : Z }.

#[export] Instance QPoint_eq_dec : EqDecision QPoint.
Proof. solve_decision. Defined.

#[export] Instance QRect_eq_dec : EqDecision QRect.
Proof. solve_decision. Defined.

Module Rect.
Definition left (r : QRect) : Z := rx r.
Definition top (r : QRect) : Z := ry r.
(** Qt: "right() returns left() + width() - 1". *)
Definition right (r : QRect) : Z := rx r + rwidth r - 1.
(** Qt: "bottom() returns top() + height() - 1". *)
Definition bottom (r : QRect) : Z := ry r + rheight r - 1.
(** Qt: [QPoint((x1 + x2) / 2, (y1 + y2) / 2)] with C++ integer division,
    where [(x1, y1)] and [(x2, y2)] are the top-left and bottom-right
    corners. *)
Definition center (r : QRect) : QPoint :=
  mkQPoint (Z.quot (left r + right r) 2) (Z.quot (top r + bottom r) 2).
Definition topLeft (r : QRect) : QPoint := mkQPoint (rx r) (ry r).
Definition translated (dx dy : Z) (r : QRect) : QRect :=
  mkQRect (rx r + dx) (ry r + dy) (rwidth r) (rheight r).
(** [QRect.contains(QPoint)] for a rectangle of positive size. *)
Definition contains (r : QRect) (p : QPoint) : bool :=
  (left r <=? px p) && (px p <=? right r) &&
  (top r <=? py p) && (py p <=? bottom r).
End Rect.

(** ** src/widgets/smart_guides.py

    [update_guides] converts every coordinate to [float] and adds half a width
    or height.  All its values are therefore integers or integers plus one
    half, which binary floating point represents and compares exactly; the
    embedding stores such a value as the integer twice as large (half-pixel
    units).  The tolerance [1.0] is [2] half pixels. *)

Module SmartGuides.

(** A coordinate in half pixels. *)
Definition hp (n : Z) : Z := 2 * n.

Definition tol : Z := 2.

Definition span : Type := Z * Z.

(** A guide [(x1, y1, x2, y2)], in half pixels. *)
Record guide := mkGuide { gx1 : Z; gy1 : Z; gx2 : Z; gy2 : Z }.

(** [matches_x] / [matches_y]: a dict from a coordinate to the list of
    spans collected for it, kept in insertion order as Python dicts are. *)
Definition matches : Type := list (Z * list span).

(** [if m_val not in d: d[m_val] = []] followed by the two [append]s. *)
Fixpoint record_match (k : Z) (s1 s2 : span) (d : matches) : matches :=
  match d with
  | [] => [(k, [s1; s2])]
  | (k', l) :: d' =>
      if Z.eqb k k' then (k', l ++ [s1; s2]) :: d'
      else (k', l) :: record_match k s1 s2 d'
  end.

(** The three coordinates of a rectangle on each axis: edge, centre, edge. *)
Definition points_x (r : QRect) : list Z :=
  [hp (rx r); hp (rx r) + rwidth r; hp (rx r + rwidth r)].
Definition points_y (r : QRect) : list Z :=
  [hp (ry r); hp (ry r) + rheight r; hp (ry r + rheight r)].

Definition span_x (r : QRect) : span := (hp (rx r), hp (rx r + rwidth r)).
Definition span_y (r : QRect) : span := (hp (ry r), hp (ry r + rheight r)).

(** The two nested loops over the moving points and the points of [r]. *)
Definition check_alignments (m_points r_points : list Z) (m_span r_span : span)
    (d : matches) : matches :=
  fold_left (fun d m_val =>
    fold_left (fun d rv =>
      if Z.abs (m_val - rv) <=? tol then record_match m_val m_span r_span d
      else d) r_points d) m_points d.

(** One iteration of [for r in other_rects]. *)
Definition visit (moving : QRect) (acc : matches * matches) (r : QRect)
    : matches * matches :=
  if bool_decide (r = moving) then acc
  else
    (check_alignments (points_x moving) (points_x r)
       (span_y moving) (span_y r) (fst acc),
     check_alignments (points_y moving) (points_y r)
       (span_x moving) (span_x r) (snd acc)).

(** Python's [min] and [max] over a generator; the lists they are applied
    to are never empty. *)
Definition py_min (l : list Z) : Z :=
  match l with [] => 0 | a :: l' => fold_left Z.min l' a end.
Definition py_max (l : list Z) : Z :=
  match l with [] => 0 | a :: l' => fold_left Z.max l' a end.

Definition vertical_line (e : Z * list span) : guide :=
  let '(x, spans) := e in
  mkGuide x (py_min (map fst spans)) x (py_max (map snd spans)).

Definition horizontal_line (e : Z * list span) : guide :=
  let '(y, spans) := e in
  mkGuide (py_min (map fst spans)) y (py_max (map snd spans)) y.

Definition collect (moving : QRect) (other_rects : list QRect)
    : matches * matches :=
  fold_left (visit moving) other_rects ([], []).

(** [SmartGuides.update_guides]: the value left in [self.active_guides]. *)
Definition update_guides (moving : QRect) (other_rects : list QRect)
    : list guide :=
  let '(matches_x, matches_y) := collect moving other_rects in
  map vertical_line matches_x ++ map horizontal_line matches_y.

End SmartGuides.

(** ** src/widgets/spacing_overlay.py *)

Module SpacingOverlay.

(** One call of [_draw_measurement]: the line [(x1, y1, x2, y2)], the value
    printed in the label and the orientation flag. *)
Record measurement := mkMeasurement {
  m_line : Z * Z * Z * Z;
  m_value : Z;
  m_is_horizontal : bool
}.

(** [bool(QRect)] in PySide6 is [not isNull()]: both sizes are zero. *)
Definition truthy (r : option QRect) : bool :=
  match r with
  | None => false
  | Some r => negb ((rwidth r =? 0) && (rheight r =? 0))
  end.

Definition h_line (r1 r2 : QRect) : option (Z * Z * Z * Z * Z) :=
  if Rect.right r1 <? Rect.left r2 then
    let dist := Rect.left r2 - Rect.right r1 in
    let y := py (Rect.center r2) in
    Some (Rect.right r1, y, Rect.left r2, y, dist)
  else if Rect.left r1 >? Rect.right r2 then
    let dist := Rect.left r1 - Rect.right r2 in
    let y := py (Rect.center r2) in
    Some (Rect.right r2, y, Rect.left r1, y, dist)
  else None.

Definition v_line (r1 r2 : QRect) : option (Z * Z * Z * Z * Z) :=
  if Rect.bottom r1 <? Rect.top r2 then
    let dist := Rect.top r2 - Rect.bottom r1 in
    let x := px (Rect.center r2) in
    Some (x, Rect.bottom r1, x, Rect.top r2, dist)
  else if Rect.top r1 >? Rect.bottom r2 then
    let dist := Rect.top r1 - Rect.bottom r2 in
    let x := px (Rect.center r2) in
    Some (x, Rect.bottom r2, x, Rect.top r1, dist)
  else None.

Definition drawn (l : option (Z * Z * Z * Z * Z)) (horizontal : bool)
    : list measurement :=
  match l with
  | Some (x1, y1, x2, y2, d) => [mkMeasurement (x1, y1, x2, y2) d horizontal]
  | None => []
  end.

(** [SpacingOverlay.paintEvent]: the measurements it draws, in order, for
    the stored [rect1] (source) and [rect2] (target). *)
Definition paintEvent (rect1 rect2 : option QRect) : list measurement :=
  if negb (truthy rect1) || negb (truthy rect2) then []
  else
    match rect1, rect2 with
    | Some r1, Some r2 =>
        drawn (h_line r1 r2) true ++ drawn (v_line r1 r2) false
    | _, _ => []
    end.

End SpacingOverlay.

(** ** Python values

    The values a JSON document can hold.  A [PDict] lists each key once, in
    insertion order, as a Python [dict] does. *)

#[warnings="-register-all"]
Inductive pyval :=
| PNone
| PBool (b : bool)
| PInt (z : Z)
| PStr (s : string)
| PList (l : list pyval)
| PDict (d : list (string * pyval)).

Inductive exn :=
| MissingKeys            (* ValueError("Invalid .dio file. Missing keys: ...") *)
| InvalidFramesStructure (* ValueError("Invalid frames structure.") *)
| TypeError
| AttributeError
| KeyError
| OSError.

Inductive result (A : Type) :=
| Ok (a : A)
| Raise (e : exn).
Arguments Ok {A} a.
Arguments Raise {A} e.

(** Exceptions propagate through sequenced statements: [x ← r; k]. *)
#[export] Instance result_bind : MBind result :=
  fun A B k r => match r with Ok a => k a | Raise e => Raise e end.

Module Py.
(** [d.get(k)] on a dict. *)
Fixpoint dict_get (k : string) (d : list (string * pyval)) : option pyval :=
  match d with
  | [] => None
  | (k', v) :: d' => if String.eqb k k' then Some v else dict_get k d'
  end.

(** [k in d] *)
Definition contains (k : string) (d : list (string * pyval)) : bool :=
  match dict_get k d with Some _ => true | None => false end.

(** Truth value of a Python object. *)
Definition truthy (v : pyval) : bool :=
  match v with
  | PNone => false
  | PBool b => b
  | PInt z => negb (z =? 0)
  | PStr s => negb (String.eqb s "")
  | PList l => match l with [] => false | _ => true end
  | PDict d => match d with [] => false | _ => true end
  end.

(** A value accepted where Qt expects a C++ [int]: a Python [int], of which
    [bool] is a subclass. *)
Definition as_int (v : pyval) : result Z :=
  match v with
  | PInt z => Ok z
  | PBool b => Ok (if b then 1 else 0)
  | _ => Raise TypeError
  end.

(** [v > 0]. *)
Definition gt_zero (v : pyval) : result bool :=
  match v with
  | PInt z => Ok (0 <? z)
  | PBool b => Ok b
  | _ => Raise TypeError
  end.

(** [any(v > 0 for v in vs)], which stops at the first true element. *)
Fixpoint any_gt_zero (vs : list pyval) : result bool :=
  match vs with
  | [] => Ok false
  | v :: vs' =>
      match gt_zero v with
      | Ok true => Ok true
      | Ok false => any_gt_zero vs'
      | Raise e => Raise e
      end
  end.

(** [f"{n}"] for an [int]. *)
Definition str_of_int (n : Z) : string :=
  NilZero.string_of_int (Z.to_int n).
End Py.

(** ** Colours: a [QColor] or whatever value a project file supplied. *)

Inductive color :=
| QColor (r g b a : Z)
| PyColor (v : pyval).

Module Palette.
Definition COLOR_BG : color := QColor 0 180 255 40.
Definition COLOR_BORDER : color := QColor 0 180 255 220.

(** [Config.FRAME_COLORS]. *)
Definition FRAME_COLORS : list (color * color) :=
  [ (QColor 0 180 255 40, QColor 0 180 255 220);
    (QColor 46 204 113 40, QColor 46 204 113 220);
    (QColor 231 76 60 40, QColor 231 76 60 220);
    (QColor 155 89 182 40, QColor 155 89 182 220);
    (QColor 241 196 15 40, QColor 241 196 15 220);
    (QColor 230 126 34 40, QColor 230 126 34 220);
    (QColor 26 188 156 40, QColor 26 188 156 220) ].

(** [Config.FRAME_COLORS[idx % len(Config.FRAME_COLORS)]]. *)
Definition pick (idx : Z) : color * color :=
  nth (Z.to_nat (idx mod Z.of_nat (length FRAME_COLORS))) FRAME_COLORS
      (COLOR_BG, COLOR_BORDER).

Definition truthy (c : color) : bool :=
  match c with
  | QColor _ _ _ _ => true
  | PyColor v => Py.truthy v
  end.
End Palette.

(** ** The desktop: [QApplication.screenAt] and [primaryScreen] *)

Record QScreen := mkQScreen { screen_geometry : QRect; availableGeometry : QRect }.

Record Desktop := mkDesktop { all_screens : list QScreen; primaryScreen : QScreen }.

(** [(QApplication.screenAt(p) or QApplication.primaryScreen()).availableGeometry()] *)
Definition screen_rect_at (desk : Desktop) (p : QPoint) : QRect :=
  match find (fun s => Rect.contains (screen_geometry s) p) (all_screens desk) with
  | Some s => availableGeometry s
  | None => availableGeometry (primaryScreen desk)
  end.

(** ** src/enums.py *)

Inductive ResizeMode :=
| NONE | MOVE
| RESIZE_LEFT | RESIZE_RIGHT | RESIZE_TOP | RESIZE_BOTTOM
| RESIZE_TOP_LEFT | RESIZE_TOP_RIGHT | RESIZE_BOTTOM_LEFT | RESIZE_BOTTOM_RIGHT.

#[export] Instance ResizeMode_eq_dec : EqDecision ResizeMode.
Proof. solve_decision. Defined.

(** ** src/widgets/measure_overlay_external.py *)

Record FrameSettings := mkSettings {
  fill_frame : bool;
  show_frame_name : bool;
  show_frame_size : bool
}.

Record DragState := mkDrag {
  drag_mode : ResizeMode;
  start_geom : QRect;
  start_mouse : QPoint;
  is_dragging : bool
}.

Record MeasureFrame := mkFrame {
  uid : nat;
  geometry : QRect;
  bg_color : color;
  border_color : color;
  frame_number : Z;
  title : string;
  is_locked : bool;
  radius_active : bool;
  corner_radii : list (string * pyval);
  view : FrameSettings;
  visible : bool;
  drag : DragState
}.

Record WheelEvent := mkWheel { angleDelta_y : Z; globalPosition : QPoint }.

Module Frame.

Definition with_geometry (g : QRect) (f : MeasureFrame) : MeasureFrame :=
  mkFrame (uid f) g (bg_color f) (border_color f) (frame_number f) (title f)
    (is_locked f) (radius_active f) (corner_radii f) (view f) (visible f)
    (drag f).

Definition width (f : MeasureFrame) : Z := rwidth (geometry f).
Definition height (f : MeasureFrame) : Z := rheight (geometry f).
Definition x (f : MeasureFrame) : Z := rx (geometry f).
Definition y (f : MeasureFrame) : Z := ry (geometry f).

(** [_init_frame] calls [setMinimumSize(MIN_SIZE, MIN_SIZE)] and
    [setMaximumSize(MAX_SIZE, MAX_SIZE)] once and nothing changes them
    later.  Qt then adjusts every requested size: first down to the
    maximum, then up to the minimum. *)
Definition constrain (n : Z) : Z :=
  Z.max (Z.min n Config.MAX_SIZE) Config.MIN_SIZE.

(** [QWidget.setGeometry(x, y, w, h)] *)
Definition setGeometry (nx ny nw nh : Z) (f : MeasureFrame) : MeasureFrame :=
  with_geometry (mkQRect nx ny (constrain nw) (constrain nh)) f.

(** [QWidget.resize(w, h)] *)
Definition resize (nw nh : Z) (f : MeasureFrame) : MeasureFrame :=
  with_geometry (mkQRect (x f) (y f) (constrain nw) (constrain nh)) f.

(** [QWidget.move(x, y)] *)
Definition move (nx ny : Z) (f : MeasureFrame) : MeasureFrame :=
  with_geometry (mkQRect nx ny (width f) (height f)) f.

(** [MeasureFrame.__init__]; a new top-level widget sits at the origin and
    [_init_frame] resizes it to 400 x 250. *)
Definition init (id : nat) (bg border : color) (number : Z)
    (initial_settings : FrameSettings) : MeasureFrame :=
  mkFrame id (mkQRect 0 0 (constrain 400) (constrain 250))
    (if Palette.truthy bg then bg else Palette.COLOR_BG)
    (if Palette.truthy border then border else Palette.COLOR_BORDER)
    number ("Frame " +:+ Py.str_of_int number)
    false false
    [("tl", PInt 0); ("tr", PInt 0); ("bl", PInt 0); ("br", PInt 0)]
    initial_settings true
    (mkDrag NONE (mkQRect 0 0 0 0) (mkQPoint 0 0) false).

Definition wheelEvent (desk : Desktop) (event : WheelEvent) (f : MeasureFrame)
    : MeasureFrame :=
  let delta := angleDelta_y event in
  let step := if delta >? 0 then 10 else -10 in
  let rect := geometry f in
  let s_rect := screen_rect_at desk (globalPosition event) in
  let nw := Z.max Config.MIN_SIZE (rwidth rect + step) in
  let nh := Z.max Config.MIN_SIZE (rheight rect + step) in
  let nx := px (Rect.center rect) - nw / 2 in
  let ny := py (Rect.center rect) - nh / 2 in
  let nx := if nx <? Rect.left s_rect then Rect.left s_rect else nx in
  let ny := if ny <? Rect.top s_rect then Rect.top s_rect else ny in
  let nw := if nx + nw >? Rect.right s_rect then Rect.right s_rect - nx else nw in
  let nh := if ny + nh >? Rect.bottom s_rect then Rect.bottom s_rect - ny else nh in
  let nw := Z.max Config.MIN_SIZE nw in
  let nh := Z.max Config.MIN_SIZE nh in
  setGeometry nx ny nw nh f.

Definition set_frame_number (number : Z) (f : MeasureFrame) : MeasureFrame :=
  let old_default := "Frame " +:+ Py.str_of_int (frame_number f) in
  let new_title :=
    if String.eqb (title f) old_default
    then "Frame " +:+ Py.str_of_int number
    else title f in
  mkFrame (uid f) (geometry f) (bg_color f) (border_color f) number new_title
    (is_locked f) (radius_active f) (corner_radii f) (view f) (visible f)
    (drag f).

Definition set_locked (locked : bool) (f : MeasureFrame) : MeasureFrame :=
  mkFrame (uid f) (geometry f) (bg_color f) (border_color f) (frame_number f)
    (title f) locked (radius_active f) (corner_radii f) (view f) (visible f)
    (drag f).

Definition set_title (t : string) (f : MeasureFrame) : MeasureFrame :=
  mkFrame (uid f) (geometry f) (bg_color f) (border_color f) (frame_number f)
    t (is_locked f) (radius_active f) (corner_radii f) (view f) (visible f)
    (drag f).

Definition setVisible (v : bool) (f : MeasureFrame) : MeasureFrame :=
  mkFrame (uid f) (geometry f) (bg_color f) (border_color f) (frame_number f)
    (title f) (is_locked f) (radius_active f) (corner_radii f) (view f) v
    (drag f).

(** [on_radius_value_changed]: [radii_dict.values()] needs a dict, and
    [any(v > 0 ...)] compares its values with [0] until one is positive. *)
Definition on_radius_value_changed (radii_dict : pyval) (f : MeasureFrame)
    : result MeasureFrame :=
  match radii_dict with
  | PDict d =>
      active ← Py.any_gt_zero (map snd d);
      Ok (mkFrame (uid f) (geometry f) (bg_color f) (border_color f)
            (frame_number f) (title f) (is_locked f) active d (view f)
            (visible f) (drag f))
  | _ => Raise AttributeError
  end.

Definition _on_dimension_input (desk : Desktop) (axis : string) (value : Z)
    (f : MeasureFrame) : MeasureFrame :=
  let s_rect := screen_rect_at desk (Rect.center (geometry f)) in
  let val := Z.max Config.MIN_SIZE value in
  if String.eqb axis "width" then
    let max_w := Rect.right s_rect - x f in
    let val := Z.min val max_w in
    resize val (height f) f
  else
    let max_h := Rect.bottom s_rect - y f in
    let val := Z.min val max_h in
    resize (width f) val f.

(** [mode in [...]] *)
Definition mode_in (m : ResizeMode) (l : list ResizeMode) : bool :=
  existsb (fun m' => bool_decide (m = m')) l.

Definition _perform_drag (desk : Desktop) (curr_mouse : QPoint) (f : MeasureFrame)
    : MeasureFrame :=
  let start := drag f in
  let dx := px curr_mouse - px (start_mouse start) in
  let dy := py curr_mouse - py (start_mouse start) in
  let s_rect := screen_rect_at desk curr_mouse in
  if bool_decide (drag_mode start = MOVE) then
    let new_x := px (Rect.topLeft (start_geom start)) + dx in
    let new_y := py (Rect.topLeft (start_geom start)) + dy in
    let x := Z.max (Rect.left s_rect) (Z.min (Rect.right s_rect - width f) new_x) in
    let y := Z.max (Rect.top s_rect) (Z.min (Rect.bottom s_rect - height f) new_y) in
    move x y f
  else
    let orig := start_geom start in
    let '(nx, nw) :=
      if mode_in (drag_mode start) [RESIZE_LEFT; RESIZE_TOP_LEFT; RESIZE_BOTTOM_LEFT] then
        let nw := Z.max Config.MIN_SIZE (rwidth orig - dx) in
        let nx := Z.max (Rect.left s_rect) (Rect.right orig - nw) in
        (nx, Rect.right orig - nx)
      else if mode_in (drag_mode start) [RESIZE_RIGHT; RESIZE_TOP_RIGHT; RESIZE_BOTTOM_RIGHT] then
        let nw := Z.max Config.MIN_SIZE (rwidth orig + dx) in
        (rx orig,
         if Rect.left orig + nw >? Rect.right s_rect
         then Rect.right s_rect - Rect.left orig else nw)
      else (rx orig, rwidth orig) in
    let '(ny, nh) :=
      if mode_in (drag_mode start) [RESIZE_TOP; RESIZE_TOP_LEFT; RESIZE_TOP_RIGHT] then
        let nh := Z.max Config.MIN_SIZE (rheight orig - dy) in
        let ny := Z.max (Rect.top s_rect) (Rect.bottom orig - nh) in
        (ny, Rect.bottom orig - ny)
      else if mode_in (drag_mode start) [RESIZE_BOTTOM; RESIZE_BOTTOM_LEFT; RESIZE_BOTTOM_RIGHT] then
        let nh := Z.max Config.MIN_SIZE (rheight orig + dy) in
        (ry orig,
         if Rect.top orig + nh >? Rect.bottom s_rect
         then Rect.bottom s_rect - Rect.top orig else nh)
      else (ry orig, rheight orig) in
    setGeometry nx ny nw nh f.

End Frame.

(** ** src/persistence/project_models.py

    A dataclass does not check its annotations: the fields hold whatever
    value the caller, or the project file, supplied. *)

Record FrameModel := mkFrameModel {
  fm_id : pyval;
  fm_title : pyval;
  fm_x : pyval;
  fm_y : pyval;
  fm_width : pyval;
  fm_height : pyval;
  fm_bg_color : pyval;
  fm_border_color : pyval;
  fm_radii : pyval;
  fm_locked : pyval;
  fm_visible : pyval;
  fm_fill_enabled : pyval
}.

Record ProjectModel := mkProjectModel {
  version : pyval;
  app_version : pyval;
  created_at : pyval;
  pm_frames : list FrameModel
}.

Module Models.

Definition default_radii : pyval :=
  PDict [("tl", PInt 0); ("tr", PInt 0); ("bl", PInt 0); ("br", PInt 0)].

(** [FrameModel.__post_init__] *)
Definition post_init (f : FrameModel) : FrameModel :=
  match fm_radii f with
  | PNone =>
      mkFrameModel (fm_id f) (fm_title f) (fm_x f) (fm_y f) (fm_width f)
        (fm_height f) (fm_bg_color f) (fm_border_color f) default_radii
        (fm_locked f) (fm_visible f) (fm_fill_enabled f)
  | _ => f
  end.

Definition arg (kwargs : list (string * pyval)) (name : string) (dflt : pyval)
    : pyval :=
  match Py.dict_get name kwargs with Some v => v | None => dflt end.

(** The generated [FrameModel.__init__], called with keyword arguments:
    [id] has no default, and the call ends with [__post_init__]. *)
Definition FrameModel_init (kwargs : list (string * pyval)) : result FrameModel :=
  match Py.dict_get "id" kwargs with
  | None => Raise TypeError
  | Some id =>
      Ok (post_init
            (mkFrameModel id
               (arg kwargs "title" (PStr "Frame"))
               (arg kwargs "x" (PInt 100))
               (arg kwargs "y" (PInt 100))
               (arg kwargs "width" (PInt 200))
               (arg kwargs "height" (PInt 200))
               (arg kwargs "bg_color" (PStr "#2c3e50"))
               (arg kwargs "border_color" (PStr "#ffffff"))
               (arg kwargs "radii" PNone)
               (arg kwargs "locked" (PBool false))
               (arg kwargs "visible" (PBool true))
               (arg kwargs "fill_enabled" (PBool true))))
  end.

(** [dataclasses.asdict(f)] *)
Definition asdict (f : FrameModel) : pyval :=
  PDict [ ("id", fm_id f); ("title", fm_title f);
          ("x", fm_x f); ("y", fm_y f);
          ("width", fm_width f); ("height", fm_height f);
          ("bg_color", fm_bg_color f); ("border_color", fm_border_color f);
          ("radii", fm_radii f); ("locked", fm_locked f);
          ("visible", fm_visible f); ("fill_enabled", fm_fill_enabled f) ].

(** [ProjectModel.to_dict] *)
Definition to_dict (p : ProjectModel) : pyval :=
  PDict [ ("version", version p);
          ("app_version", app_version p);
          ("created_at", created_at p);
          ("frames", PList (map asdict (pm_frames p))) ].

End Models.

(** ** src/persistence/project_validator.py *)

Module ProjectValidator.

Definition REQUIRED_KEYS : list string := ["version"; "frames"].

Definition validate (raw_data : pyval) : result unit :=
  match raw_data with
  | PDict d =>
      let missing :=
        List.filter (fun k => negb (Py.contains k d)) REQUIRED_KEYS in
      match missing with
      | _ :: _ => Raise MissingKeys
      | [] =>
          match Py.dict_get "frames" d with
          | Some (PList _) => Ok ()
          | Some _ => Raise InvalidFramesStructure
          | None => Raise KeyError
          end
      end
  | _ => Raise AttributeError  (* [raw_data.keys()] *)
  end.

End ProjectValidator.

(** ** src/persistence/project_serializer.py

    A file system maps a path to the JSON document stored there.  [json.dump]
    followed by [json.load] returns the value that was written, for every
    value of [pyval]; the text in between is not modelled. *)

Module ProjectSerializer.

Section Paths.
  (** The path [save] opens: the given one when its suffix is [.dio], and
      [path.with_suffix(".dio")] otherwise (pathlib). *)
Variable dio_path : string -> string.

Definition save (path : string) (project : ProjectModel)
      (fs : gmap string pyval) : gmap string pyval :=
    <[dio_path path := Models.to_dict project]> fs.
End Paths.

(** [inspect.signature(FrameModel).parameters.keys()] *)
Definition frame_keys : list string :=
  ["id"; "title"; "x"; "y"; "width"; "height"; "bg_color"; "border_color";
   "radii"; "locked"; "visible"; "fill_enabled"].

(** One element of the list comprehension in [load]. *)
Definition frame_of (frame_dict : pyval) : result FrameModel :=
  match frame_dict with
  | PDict d =>
      Models.FrameModel_init
        (List.filter (fun kv => existsb (String.eqb (fst kv)) frame_keys) d)
  | _ => Raise AttributeError  (* [frame_dict.items()] *)
  end.

Fixpoint frames_of (l : list pyval) : result (list FrameModel) :=
  match l with
  | [] => Ok []
  | d :: l' =>
      match frame_of d with
      | Raise e => Raise e
      | Ok f =>
          match frames_of l' with
          | Raise e => Raise e
          | Ok fs => Ok (f :: fs)
          end
      end
  end.

Definition load (fs : gmap string pyval) (path : string) : result ProjectModel :=
  match fs !! path with
  | None => Raise OSError
  | Some raw =>
      _ ← ProjectValidator.validate raw;
      match raw with
      | PDict d =>
          match Py.dict_get "frames" d, Py.dict_get "version" d with
          | Some (PList l), Some v =>
              frames ← frames_of l;
              Ok (mkProjectModel v
                    (Models.arg d "app_version" (PStr "unknown"))
                    (Models.arg d "created_at" (PStr ""))
                    frames)
          | Some _, Some _ => Raise TypeError
          | _, _ => Raise KeyError
          end
      | _ => Raise AttributeError
      end
  end.

End ProjectSerializer.

(** ** src/manager.py *)

Record FrameManager := mkManager {
  frames : list MeasureFrame;
  color_idx : Z;
  selected_frame : option nat;      (* the uid of the selected frame *)
  project_path : option string;
  dirty : bool;
  advanced_settings : FrameSettings;
  next_uid : nat                    (* identity of the next widget created *)
}.

Module Manager.

Definition with_frames (l : list MeasureFrame) (st : FrameManager) : FrameManager :=
  mkManager l (color_idx st) (selected_frame st) (project_path st) (dirty st)
    (advanced_settings st) (next_uid st).

Definition _mark_dirty (st : FrameManager) : FrameManager :=
  mkManager (frames st) (color_idx st) (selected_frame st) (project_path st)
    true (advanced_settings st) (next_uid st).

Definition select_frame (frame : option nat) (st : FrameManager) : FrameManager :=
  mkManager (frames st) (color_idx st) frame (project_path st) (dirty st)
    (advanced_settings st) (next_uid st).

(** [frame in self.frames], by identity. *)
Definition find_frame (id : nat) (l : list MeasureFrame) : option MeasureFrame :=
  find (fun f => Nat.eqb (uid f) id) l.

(** [self.frames.remove(frame)]: drops the first occurrence. *)
Fixpoint remove_frame (id : nat) (l : list MeasureFrame) : list MeasureFrame :=
  match l with
  | [] => []
  | f :: l' => if Nat.eqb (uid f) id then l' else f :: remove_frame id l'
  end.

(** A method call on the widget [id] mutates that object inside the list. *)
Definition update_frame (id : nat) (g : MeasureFrame -> MeasureFrame)
    (l : list MeasureFrame) : list MeasureFrame :=
  map (fun f => if Nat.eqb (uid f) id then g f else f) l.

(** [for i, f in enumerate(self.frames, start): f.set_frame_number(i)] *)
Fixpoint renumber_from (start : Z) (l : list MeasureFrame) : list MeasureFrame :=
  match l with
  | [] => []
  | f :: l' => Frame.set_frame_number start f :: renumber_from (start + 1) l'
  end.

Definition _renumber_frames (st : FrameManager) : FrameManager :=
  with_frames (renumber_from 1 (frames st)) st.

Definition _on_frame_closing (frame : nat) (st : FrameManager) : FrameManager :=
  let remaining := remove_frame frame (frames st) in
  let selected :=
    if bool_decide (selected_frame st = Some frame)
    then uid <$> last remaining
    else selected_frame st in
  _mark_dirty
    (_renumber_frames
       (mkManager remaining (color_idx st) selected (project_path st)
          (dirty st) (advanced_settings st) (next_uid st))).

(** [_handle_duplicate_frame].  An exception of [on_radius_value_changed]
    leaves the slot after the palette counter has advanced and before the
    new widget is registered. *)
Definition _handle_duplicate_frame (frame : nat) (st : FrameManager) : FrameManager :=
  match find_frame frame (frames st) with
  | None => st
  | Some f =>
      let new_name := title f +:+ " copy" in
      let '(bg, border) := Palette.pick (color_idx st) in
      let id := next_uid st in
      let st := mkManager (frames st) (color_idx st + 1) (selected_frame st)
                  (project_path st) (dirty st) (advanced_settings st)
                  (S id) in
      let new_frame :=
        Frame.init id bg border
          (Z.of_nat (length (frames st)) + 1) (advanced_settings st) in
      let g := Rect.translated 20 20 (geometry f) in
      let new_frame :=
        Frame.setGeometry (rx g) (ry g) (rwidth g) (rheight g) new_frame in
      let new_frame := Frame.set_title new_name new_frame in
      match Frame.on_radius_value_changed (PDict (corner_radii f)) new_frame with
      | Raise _ => st
      | Ok new_frame =>
          _mark_dirty
            (select_frame (Some (uid new_frame))
               (with_frames (frames st ++ [new_frame]) st))
      end
  end.

(** [_handle_move_frame]; [shift] tells whether the Shift modifier is held. *)
Definition _handle_move_frame (desk : Desktop) (shift : bool) (frame_id : nat)
    (direction : string) (st : FrameManager) : FrameManager :=
  match find_frame frame_id (frames st) with
  | None => st
  | Some frame =>
      if is_locked frame then st
      else
        let step := if shift then 10 else 1 in
        let pos := Rect.topLeft (geometry frame) in
        let pos :=
          if String.eqb direction "up" then mkQPoint (px pos) (py pos - step)
          else if String.eqb direction "down" then mkQPoint (px pos) (py pos + step)
          else if String.eqb direction "left" then mkQPoint (px pos - step) (py pos)
          else if String.eqb direction "right" then mkQPoint (px pos + step) (py pos)
          else pos in
        let screen_geo := screen_rect_at desk (Rect.center (geometry frame)) in
        let x := Z.max (Rect.left screen_geo)
                   (Z.min (Rect.right screen_geo - Frame.width frame) (px pos)) in
        let y := Z.max (Rect.top screen_geo)
                   (Z.min (Rect.bottom screen_geo - Frame.height frame) (py pos)) in
        _mark_dirty
          (with_frames (update_frame frame_id (Frame.move x y) (frames st)) st)
  end.

(** The body of the loop of [import_design_from_path] up to
    [self.frames.append(overlay)].  [setGeometry] needs four ints and
    [setVisible] a bool; [set_locked] keeps the truth value of its
    argument; [show()] makes the widget visible whatever [visible] said.
    A title that is not a string is reported where it is set. *)
Definition build_overlay (id : nat) (number : Z) (settings : FrameSettings)
    (frame_data : FrameModel) : result MeasureFrame :=
  let overlay :=
    Frame.init id (PyColor (fm_bg_color frame_data))
      (PyColor (fm_border_color frame_data)) number settings in
  x ← Py.as_int (fm_x frame_data);
  y ← Py.as_int (fm_y frame_data);
  w ← Py.as_int (fm_width frame_data);
  h ← Py.as_int (fm_height frame_data);
  let overlay := Frame.setGeometry x y w h overlay in
  t ← match fm_title frame_data with PStr s => Ok s | _ => Raise TypeError end;
  let overlay := Frame.set_title t overlay in
  let overlay := Frame.set_locked (Py.truthy (fm_locked frame_data)) overlay in
  v ← match fm_visible frame_data with
      | PBool b => Ok b
      | PInt z => Ok (negb (z =? 0))
      | _ => Raise TypeError
      end;
  let overlay := Frame.setVisible v overlay in
  overlay ← Frame.on_radius_value_changed (fm_radii frame_data) overlay;
  Ok (Frame.setVisible true overlay).

(** [for frame_data in project.frames: ...]: the state reached and the
    exception that ended the loop, if any. *)
Fixpoint build_all (l : list FrameModel) (st : FrameManager)
    : FrameManager * option exn :=
  match l with
  | [] => (st, None)
  | frame_data :: l' =>
      let id := next_uid st in
      let st := mkManager (frames st) (color_idx st) (selected_frame st)
                  (project_path st) (dirty st) (advanced_settings st)
                  (S id) in
      match build_overlay id
              (Z.of_nat (length (frames st)) + 1) (advanced_settings st)
              frame_data with
      | Raise e => (st, Some e)
      | Ok overlay => build_all l' (with_frames (frames st ++ [overlay]) st)
      end
  end.

(** [for f in list(self.frames): f.close()]: every [close()] emits
    [frame_closing], which runs [_on_frame_closing]. *)
Definition close_all (st : FrameManager) : FrameManager :=
  fold_left (fun st f => _on_frame_closing (uid f) st) (frames st) st.

(** [import_design_from_path]: the state it leaves and the exception shown
    in the "Import Error" dialog, if any. *)
Definition import_design_from_path (fs : gmap string pyval) (path : string)
    (st : FrameManager) : FrameManager * option exn :=
  match ProjectSerializer.load fs path with
  | Raise e => (st, Some e)
  | Ok project =>
      let st := close_all st in
      let st := mkManager [] (color_idx st) (selected_frame st) (Some path)
                  (dirty st) (advanced_settings st) (next_uid st) in
      match build_all (pm_frames project) st with
      | (st, Some e) => (st, Some e)
      | (st, None) =>
          let st :=
            match frames st with
            | f :: _ => select_frame (Some (uid f)) st
            | [] => st
            end in
          (mkManager (frames st) (color_idx st) (selected_frame st)
             (project_path st) false (advanced_settings st) (next_uid st),
           None)
      end
  end.

End Manager.

(** ** The smart-guide matcher as the specification words it

    For one axis: [pts] gives the three coordinates of a rectangle on the
    matched axis and [ext] its extent on the other axis.  A rectangle of the
    list takes part in the alignment at the moving coordinate [k] when it is
    not the moving rectangle itself and one of its coordinates lies within the
    tolerance of [k]; the guide at [k] runs from the least lower bound to the
    greatest upper bound of the moving rectangle and of all the rectangles
    that take part. *)

Module GuideSpec.
Import SmartGuides.

Section Axis.
Variable pts : QRect -> list Z.
Variable ext : QRect -> span.

Definition aligned (a b : Z) : bool := Z.abs (a - b) <=? tol.

Definition partner (moving : QRect) (k : Z) (r : QRect) : bool :=
  negb (bool_decide (r = moving)) && existsb (aligned k) (pts r).

Definition partners (moving : QRect) (others : list QRect) (k : Z) : list QRect :=
  List.filter (partner moving k) others.

Definition lower (moving : QRect) (others : list QRect) (k : Z) : Z :=
  py_min (fst (ext moving) :: map (fun r => fst (ext r)) (partners moving others k)).

Definition upper (moving : QRect) (others : list QRect) (k : Z) : Z :=
  py_max (snd (ext moving) :: map (fun r => snd (ext r)) (partners moving others k)).

(** The part of [collect] that concerns one axis. *)
Definition axis_matches (moving : QRect) (others : list QRect) : matches :=
  fold_left (fun d r =>
    if bool_decide (r = moving) then d
    else check_alignments (pts moving) (pts r) (ext moving) (ext r) d)
    others [].

(** The moving coordinates that pass the tolerance test against [rp], once
    per passing pair, in the order the loops meet them. *)
Definition hits (mp rp : list Z) : list Z :=
  flat_map (fun mv => flat_map (fun rv => if aligned mv rv then [mv] else []) rp) mp.

Definition events (moving : QRect) (others : list QRect) : list (Z * span) :=
  flat_map (fun r =>
    if bool_decide (r = moving) then []
    else map (fun k => (k, ext r)) (hits (pts moving) (pts r))) others.

End Axis.

Definition record_all (ms : span) (evs : list (Z * span)) (d : matches) : matches :=
  fold_left (fun d e => record_match (fst e) ms (snd e) d) evs d.

(** [d.get(k, [])] *)
Definition spans_of (k : Z) (d : matches) : list span :=
  match find (fun e => Z.eqb k (fst e)) d with
  | Some e => snd e
  | None => []
  end.

Definition vertical_guide (moving : QRect) (others : list QRect) (k : Z) : guide :=
  mkGuide k (lower points_x span_y moving others k)
          k (upper points_x span_y moving others k).

Definition horizontal_guide (moving : QRect) (others : list QRect) (k : Z) : guide :=
  mkGuide (lower points_y span_x moving others k) k
          (upper points_y span_x moving others k) k.

(** The two halves of the list [update_guides] builds. *)
Definition vertical_guides (moving : QRect) (others : list QRect) : list guide :=
  map vertical_line (fst (collect moving others)).

Definition horizontal_guides (moving : QRect) (others : list QRect) : list guide :=
  map horizontal_line (snd (collect moving others)).

End GuideSpec.

(** ** Predicates used in the statements *)

(** [frame] lies inside [screen], in the terms of [QRect]'s own accessors. *)
Definition inside (frame screen : QRect) : Prop :=
  Rect.left screen <= Rect.left frame
  /\ Rect.top screen <= Rect.top frame
  /\ Rect.right frame <= Rect.right screen
  /\ Rect.bottom frame <= Rect.bottom screen.

(** The size of a widget respects the constraints [_init_frame] installed. *)
Definition size_ok (f : MeasureFrame) : Prop :=
  Config.MIN_SIZE <= Frame.width f <= Config.MAX_SIZE
  /\ Config.MIN_SIZE <= Frame.height f <= Config.MAX_SIZE.


(** ** Concrete inputs used by the examples below *)

Module Examples.
Definition guide_moving : QRect := mkQRect 0 0 100 100.
Definition guide_a : QRect := mkQRect 0 200 50 50.
Definition guide_b : QRect := mkQRect 0 400 70 70.
Definition guide_c : QRect := mkQRect 100 50 100 100.

Definition settings : FrameSettings := mkSettings true true true.

(** A desktop with one full-HD screen, and one with a 5120 x 1440 screen. *)
Definition hd_screen : QScreen :=
  mkQScreen (mkQRect 0 0 1920 1080) (mkQRect 0 0 1920 1040).
Definition hd_desk : Desktop := mkDesktop [hd_screen] hd_screen.
Definition wide_screen : QScreen :=
  mkQScreen (mkQRect 0 0 5120 1440) (mkQRect 0 0 5120 1400).
Definition wide_desk : Desktop := mkDesktop [wide_screen] wide_screen.

(** The first frame [create_frame] makes, placed at (100, 100). *)
Definition frame1 : MeasureFrame :=
  Frame.move 100 100
    (Frame.init 0 (fst (Palette.pick 0)) (snd (Palette.pick 0)) 1 settings).

(** A frame 2000 pixels wide, as a project drawn on a larger display holds. *)
Definition broad_frame : MeasureFrame := Frame.setGeometry 0 100 2000 200 frame1.

Definition dragging (mode : ResizeMode) (p : QPoint) (f : MeasureFrame) : MeasureFrame :=
  mkFrame (uid f) (geometry f) (bg_color f) (border_color f) (frame_number f)
    (title f) (is_locked f) (radius_active f) (corner_radii f) (view f)
    (visible f) (mkDrag mode (geometry f) p true).

Definition manager_of (l : list MeasureFrame) : FrameManager :=
  mkManager l (Z.of_nat (length l)) (uid <$> last l) None true settings (length l).

Definition model1 : FrameModel :=
  mkFrameModel (PStr "3f2c") (PStr "Frame 1") (PInt 100) (PInt 100) (PInt 200)
    (PInt 200) (PStr "#00b4ff") (PStr "#00b4ff")
    (PDict [("tl", PInt 4); ("tr", PInt 0); ("bl", PInt 0); ("br", PInt 8)])
    (PBool false) (PBool true) (PBool true).

Definition model2 : FrameModel :=
  mkFrameModel (PStr "9a1e") (PStr "Header") (PInt (-40)) (PInt 12) (PInt 640)
    (PInt 80) (PStr "#2ecc71") (PStr "#2ecc71") Models.default_radii
    (PBool true) (PBool false) (PBool false).

Definition project : ProjectModel :=
  mkProjectModel (PStr "1.0") (PStr "2.0.0") (PStr "2024-01-01T00:00:00")
    [model1; model2].

(** A project file with neither "version" nor a well-formed frame, and one
    that passes validation but gives a frame the string "abc" as [x]. *)
Definition file_without_version : pyval :=
  PDict [("frames", PList [])].

Definition file_with_bad_x : pyval :=
  PDict [("version", PStr "1.0");
         ("frames",
          PList [PDict [("id", PStr "3f2c"); ("title", PStr "Frame 1");
                        ("x", PStr "abc"); ("y", PInt 100);
                        ("width", PInt 200); ("height", PInt 200)]])].

Definition disk : gmap string pyval :=
  <["bad.dio" := file_with_bad_x]> (<["old.dio" := file_without_version]> ∅).


(** Three frames as [create_frame] numbers and names them. *)
Definition default_frame (id : nat) (number : Z) : MeasureFrame :=
  Frame.init id (fst (Palette.pick (number - 1))) (snd (Palette.pick (number - 1)))
    number settings.
Definition three_frames : list MeasureFrame :=
  [default_frame 0 1; default_frame 1 2; default_frame 2 3].

(** A manager that holds one frame and works on the project "mine.dio". *)
Definition manager1 : FrameManager :=
  mkManager [frame1] 1 (Some 0%nat) (Some "mine.dio") false settings 1.
End Examples.

(** ** Mouse handling of a frame (src/widgets/measure_overlay_external.py) *)

Module FrameEvents.

Definition with_drag (d : DragState) (f : MeasureFrame) : MeasureFrame :=
  mkFrame (uid f) (geometry f) (bg_color f) (border_color f) (frame_number f)
    (title f) (is_locked f) (radius_active f) (corner_radii f) (view f)
    (visible f) d.

(** [_get_resize_mode]; [p] is in the widget's own coordinates. *)
Definition _get_resize_mode (p : QPoint) (f : MeasureFrame) : ResizeMode :=
  if is_locked f then NONE
  else
    let w := Frame.width f in
    let h := Frame.height f in
    let m := Z.min Config.MARGIN_RESIZE (Z.min (w / 3) (h / 3)) in
    let left := px p <? m in
    let right := px p >? w - m in
    let top := py p <? m in
    let bottom := py p >? h - m in
    if top && left then RESIZE_TOP_LEFT
    else if top && right then RESIZE_TOP_RIGHT
    else if bottom && left then RESIZE_BOTTOM_LEFT
    else if bottom && right then RESIZE_BOTTOM_RIGHT
    else if left then RESIZE_LEFT
    else if right then RESIZE_RIGHT
    else if top then RESIZE_TOP
    else if bottom then RESIZE_BOTTOM
    else MOVE.

(** [mousePressEvent]: [pos] is the local and [global_pos] the global
    position of the pointer.  Another button than the left one is passed
    on. *)
Definition mousePressEvent (left_button : bool) (pos global_pos : QPoint)
    (f : MeasureFrame) : MeasureFrame :=
  if left_button
  then with_drag (mkDrag (_get_resize_mode pos f) (geometry f) global_pos true) f
  else f.

(** [mouseMoveEvent]: outside a drag only the cursor and the hover flag
    change. *)
Definition mouseMoveEvent (desk : Desktop) (global_pos : QPoint)
    (f : MeasureFrame) : MeasureFrame :=
  if negb (is_dragging (drag f)) then f
  else if bool_decide (drag_mode (drag f) = NONE) then f
  else Frame._perform_drag desk global_pos f.

(** [mouseReleaseEvent] *)
Definition mouseReleaseEvent (left_button : bool) (f : MeasureFrame) : MeasureFrame :=
  if left_button
  then with_drag (mkDrag NONE (start_geom (drag f)) (start_mouse (drag f)) false) f
  else f.

(** A whole gesture with the left button: press, the pointer positions
    reported while it is held, release. *)
Definition drag_gesture (desk : Desktop) (pos global_pos : QPoint)
    (moves : list QPoint) (f : MeasureFrame) : MeasureFrame :=
  mouseReleaseEvent true
    (fold_left (fun f p => mouseMoveEvent desk p f) moves
       (mousePressEvent true pos global_pos f)).

End FrameEvents.

(** ** More of src/manager.py *)

(** The smart-guide overlay as the manager sees it. *)
Record GuidesOverlay := mkOverlay {
  active_guides : list SmartGuides.guide;
  hide_timer_active : bool;
  overlay_shown : bool
}.

Module ManagerOps.
Import Manager.

(** [SmartGuides.update_guides] with its timer and visibility. *)
Definition overlay_update (moving : QRect) (other_rects : list QRect)
    (auto_hide : bool) : GuidesOverlay :=
  let gs := SmartGuides.update_guides moving other_rects in
  mkOverlay gs auto_hide (match gs with [] => false | _ => true end).

(** [SmartGuides.clear] *)
Definition overlay_clear : GuidesOverlay := mkOverlay [] false false.

(** [create_frame].  The selected widget is looked up among the frames; an
    exception of [on_radius_value_changed] leaves the method after the
    palette counter has advanced. *)
Definition create_frame (st : FrameManager) : FrameManager :=
  let '(bg, border) := Palette.pick (color_idx st) in
  let id := next_uid st in
  let overlay :=
    Frame.init id bg border (Z.of_nat (length (frames st)) + 1)
      (advanced_settings st) in
  let st := mkManager (frames st) (color_idx st + 1) (selected_frame st)
              (project_path st) (dirty st) (advanced_settings st) (S id) in
  let inherited :=
    match selected_frame st ≫= (fun s => find_frame s (frames st)) with
    | Some sel =>
        let g := Rect.translated 20 20 (geometry sel) in
        Frame.on_radius_value_changed (PDict (corner_radii sel))
          (Frame.setGeometry (rx g) (ry g) (rwidth g) (rheight g) overlay)
    | None => Ok overlay
    end in
  match inherited with
  | Raise _ => st
  | Ok overlay =>
      _mark_dirty
        (select_frame (Some (uid overlay))
           (with_frames (frames st ++ [overlay]) st))
  end.

(** [_handle_lock_toggle] *)
Definition _handle_lock_toggle (f : nat) (l : bool) (st : FrameManager) : FrameManager :=
  _mark_dirty (with_frames (update_frame f (Frame.set_locked l) (frames st)) st).

(** [_handle_visibility_toggle] *)
Definition _handle_visibility_toggle (f : nat) (v : bool) (st : FrameManager)
    : FrameManager :=
  _mark_dirty (with_frames (update_frame f (Frame.setVisible v) (frames st)) st).

(** [_handle_name_change] *)
Definition _handle_name_change (f : nat) (n : string) (st : FrameManager)
    : FrameManager :=
  _mark_dirty (with_frames (update_frame f (Frame.set_title n) (frames st)) st).

(** [_handle_remote_delete]: [f.close()] runs [_on_frame_closing]. *)
Definition _handle_remote_delete (f : nat) (st : FrameManager) : FrameManager :=
  match find_frame f (frames st) with
  | Some _ => _mark_dirty (_on_frame_closing f st)
  | None => st
  end.

(** [_on_geometry_changed]: the guides shown for the frame that changed. *)
Definition _on_geometry_changed (frame : nat) (st : FrameManager)
    : FrameManager * option GuidesOverlay :=
  match find_frame frame (frames st) with
  | Some f =>
      let others :=
        map geometry
          (List.filter (fun g => negb (Nat.eqb (uid g) frame) && visible g)
             (frames st)) in
      (_mark_dirty st,
       Some (overlay_update (geometry f) others (negb (is_dragging (drag f)))))
  | None => (st, None)
  end.

(** [QColor.name()]: "#rrggbb" in lower-case hexadecimal. *)
Definition hex_digit (n : Z) : ascii :=
  nth (Z.to_nat n)
    ["0"; "1"; "2"; "3"; "4"; "5"; "6"; "7"; "8"; "9";
     "a"; "b"; "c"; "d"; "e"; "f"]%char "0"%char.

Definition hex2 (n : Z) : string :=
  String (hex_digit (n / 16)) (String (hex_digit (n mod 16)) EmptyString).

(** [c.name() if hasattr(c, 'name') else c]: no value of a project file has
    an attribute [name]. *)
Definition color_name (c : color) : pyval :=
  match c with
  | QColor r g b _ => PStr ("#" +:+ hex2 r +:+ hex2 g +:+ hex2 b)
  | PyColor v => v
  end.

(** One [FrameModel(...)] of [_export_current_project]; [uuid] stands for
    [str(uuid.uuid4())]. *)
Definition frame_model (uuid : string) (f : MeasureFrame) : FrameModel :=
  mkFrameModel (PStr uuid) (PStr (title f))
    (PInt (Frame.x f)) (PInt (Frame.y f))
    (PInt (Frame.width f)) (PInt (Frame.height f))
    (color_name (bg_color f)) (color_name (border_color f))
    (PDict (corner_radii f))
    (PBool (is_locked f)) (PBool (visible f)) (PBool (fill_frame (view f))).

(** [_export_current_project]; [uuids i] is the identifier drawn for the
    frame at position [i] and [now] is [datetime.now().isoformat()]. *)
Definition _export_current_project (uuids : nat -> string) (now : string)
    (st : FrameManager) : ProjectModel :=
  mkProjectModel (PStr "1.0") (PStr "2.0.0") (PStr now)
    (imap (fun i f => frame_model (uuids i) f) (frames st)).

Section Files.
Variable dio_path : string -> string.
Variable uuids : nat -> string.
Variable now : string.

(** [save_design]; [chosen] is what the file dialog returns when it is
    shown (the empty string when it is cancelled). *)
Definition save_design (chosen : string)
    (world : FrameManager * gmap string pyval)
    : FrameManager * gmap string pyval :=
  let '(st, fs) := world in
  match frames st with
  | [] => (st, fs)
  | _ :: _ =>
      let path :=
        match project_path st with
        | Some p => if String.eqb p "" then chosen else p
        | None => chosen
        end in
      if String.eqb path "" then (st, fs)
      else
        (mkManager (frames st) (color_idx st) (selected_frame st) (Some path)
           false (advanced_settings st) (next_uid st),
         ProjectSerializer.save dio_path path
           (_export_current_project uuids now st) fs)
  end.

(** [new_design] *)
Definition new_design (world : FrameManager * gmap string pyval)
    : FrameManager * gmap string pyval :=
  let '(st, fs) := world in
  let autosave :=
    match project_path st, frames st with
    | Some p, _ :: _ => negb (String.eqb p "") && dirty st
    | _, _ => false
    end in
  let '(st, fs) := if autosave then save_design "" (st, fs) else (st, fs) in
  let st := close_all st in
  let st := mkManager [] 0 None None false (advanced_settings st) (next_uid st) in
  (create_frame st, fs).

End Files.

End ManagerOps.

(** The frames carry the numbers 1, 2, ... in list order. *)
Definition numbered (l : list MeasureFrame) : Prop :=
  forall (i : nat) (f : MeasureFrame), l !! i = Some f -> frame_number f = Z.of_nat i + 1.

(** The selection, if any, is one of the frames. *)
Definition selection_valid (st : FrameManager) : Prop :=
  match selected_frame st with
  | None => True
  | Some id => exists f, Manager.find_frame id (frames st) = Some f
  end.

(** * Theorems *)

(** ** Smart guides *)

Section GuideFacts.
Import SmartGuides GuideSpec.

Lemma fold_left_flat_map {A B C} (f : A -> B -> A) (g : C -> list B) l a :
  fold_left f (flat_map g l) a = fold_left (fun a c => fold_left f (g c) a) l a.
Proof.
  revert a. induction l as [|c l IH]; intros a; simpl; [reflexivity|].
  rewrite fold_left_app. apply IH.
Qed.

Lemma record_all_app ms e1 e2 d :
  record_all ms (e1 ++ e2) d = record_all ms e2 (record_all ms e1 d).
Proof. unfold record_all. apply fold_left_app. Qed.

Lemma check_alignments_events mp rp ms rs d :
  check_alignments mp rp ms rs d
  = record_all ms (map (fun k => (k, rs)) (hits mp rp)) d.
Proof.
  unfold check_alignments, hits, record_all.
  revert d. induction mp as [|mv mp IH]; intros d; simpl; [reflexivity|].
  rewrite IH, map_app, fold_left_app. f_equal.
  clear IH. unfold aligned. revert d.
  induction rp as [|rv rp IH]; intros d; simpl; [reflexivity|].
  destruct (Z.abs (mv - rv) <=? tol); simpl; rewrite IH; reflexivity.
Qed.

Lemma axis_matches_events pts ext moving others :
  axis_matches pts ext moving others
  = record_all (ext moving) (events pts ext moving others) [].
Proof.
  unfold axis_matches, events.
  generalize (@nil (Z * list span)) as d.
  induction others as [|r others IH]; intros d; simpl; [reflexivity|].
  rewrite record_all_app, IH. f_equal.
  destruct (bool_decide (r = moving)); [reflexivity|].
  apply check_alignments_events.
Qed.

Lemma collect_axes moving others :
  collect moving others
  = (axis_matches points_x span_y moving others,
     axis_matches points_y span_x moving others).
Proof.
  unfold collect, axis_matches.
  generalize (@nil (Z * list span)) at 1 3 as dx.
  generalize (@nil (Z * list span)) as dy.
  induction others as [|r others IH]; intros dy dx; simpl; [reflexivity|].
  unfold visit at 2. simpl.
  destruct (bool_decide (r = moving)); apply IH.
Qed.

Lemma record_match_keys k s1 s2 d k' :
  In k' (map fst (record_match k s1 s2 d)) <-> k' = k \/ In k' (map fst d).
Proof.
  induction d as [|[k0 l] d IH]; simpl.
  - intuition.
  - destruct (Z.eqb_spec k k0) as [->|Hne]; simpl; [intuition|].
    rewrite IH. intuition.
Qed.

Lemma record_match_NoDup k s1 s2 d :
  NoDup (map fst d) -> NoDup (map fst (record_match k s1 s2 d)).
Proof.
  induction d as [|[k0 l] d IH]; simpl; intros Hd.
  - constructor; [rewrite list_elem_of_In; simpl; tauto | constructor].
  - apply NoDup_cons in Hd as [Hk0 Hd].
    destruct (Z.eqb_spec k k0) as [->|Hne]; simpl.
    + apply NoDup_cons; auto.
    + apply NoDup_cons. split; [|auto].
      rewrite list_elem_of_In in *. rewrite record_match_keys.
      intros [?|?]; [congruence | tauto].
Qed.

Lemma spans_of_record_match k k' s1 s2 d :
  spans_of k (record_match k' s1 s2 d)
  = spans_of k d ++ (if Z.eqb k k' then [s1; s2] else []).
Proof.
  unfold spans_of.
  induction d as [|[k0 l] d IH]; simpl.
  - destruct (Z.eqb k k'); reflexivity.
  - destruct (Z.eqb_spec k' k0) as [->|Hne]; simpl.
    + destruct (Z.eqb_spec k k0); simpl; [reflexivity|].
      rewrite app_nil_r. reflexivity.
    + destruct (Z.eqb_spec k k0) as [->|Hne']; simpl; [|apply IH].
      destruct (Z.eqb_spec k0 k'); [congruence|]. rewrite app_nil_r. reflexivity.
Qed.

Lemma record_all_keys ms evs d k :
  In k (map fst (record_all ms evs d)) <-> In k (map fst evs) \/ In k (map fst d).
Proof.
  unfold record_all. revert d.
  induction evs as [|e evs IH]; intros d; simpl; [tauto|].
  rewrite IH, record_match_keys. intuition.
Qed.

Lemma record_all_NoDup ms evs d :
  NoDup (map fst d) -> NoDup (map fst (record_all ms evs d)).
Proof.
  unfold record_all. revert d.
  induction evs as [|e evs IH]; intros d Hd; simpl; [exact Hd|].
  apply IH, record_match_NoDup, Hd.
Qed.

Lemma spans_of_record_all ms evs d k :
  spans_of k (record_all ms evs d)
  = spans_of k d
    ++ flat_map (fun e => if Z.eqb k (fst e) then [ms; snd e] else []) evs.
Proof.
  unfold record_all. revert d.
  induction evs as [|e evs IH]; intros d; simpl.
  - rewrite app_nil_r. reflexivity.
  - rewrite IH, spans_of_record_match, <- app_assoc. reflexivity.
Qed.

Lemma entry_spans (d : matches) k l :
  NoDup (map fst d) -> In (k, l) d -> l = spans_of k d.
Proof.
  unfold spans_of.
  induction d as [|[k0 l0] d IH]; simpl; intros Hd Hin; [tauto|].
  apply NoDup_cons in Hd as [Hk0 Hd].
  destruct Hin as [Heq|Hin].
  - inversion Heq; subst. rewrite Z.eqb_refl. reflexivity.
  - destruct (Z.eqb_spec k k0) as [->|Hne]; [|auto].
    exfalso. apply Hk0. rewrite list_elem_of_In.
    change k0 with (fst (k0, l)). apply in_map, Hin.
Qed.

Lemma key_entry (d : matches) k :
  In k (map fst d) -> In (k, spans_of k d) d.
Proof.
  unfold spans_of.
  induction d as [|[k0 l0] d IH]; simpl; [tauto|].
  intros [->|Hin].
  - rewrite Z.eqb_refl. left. reflexivity.
  - destruct (Z.eqb_spec k k0) as [->|Hne]; [left; reflexivity | right; auto].
Qed.

(** Python's [min] and [max] depend on the elements only. *)

Lemma fold_min_spec l a :
  In (fold_left Z.min l a) (a :: l)
  /\ forall x, In x (a :: l) -> fold_left Z.min l a <= x.
Proof.
  revert a. induction l as [|b l IH]; intros a; simpl.
  - split; [tauto | intros x [->|[]]; lia].
  - destruct (IH (Z.min a b)) as [Hin Hle]. split.
    + destruct Hin as [Heq|Hin]; [|tauto].
      rewrite <- Heq. destruct (Z.min_spec a b) as [[_ ->]|[_ ->]]; tauto.
    + intros x [->|[->|Hx]].
      * specialize (Hle (Z.min x b) (or_introl eq_refl)). lia.
      * specialize (Hle (Z.min a x) (or_introl eq_refl)). lia.
      * apply Hle. right. exact Hx.
Qed.

Lemma fold_max_spec l a :
  In (fold_left Z.max l a) (a :: l)
  /\ forall x, In x (a :: l) -> x <= fold_left Z.max l a.
Proof.
  revert a. induction l as [|b l IH]; intros a; simpl.
  - split; [tauto | intros x [->|[]]; lia].
  - destruct (IH (Z.max a b)) as [Hin Hle]. split.
    + destruct Hin as [Heq|Hin]; [|tauto].
      rewrite <- Heq. destruct (Z.max_spec a b) as [[_ ->]|[_ ->]]; tauto.
    + intros x [->|[->|Hx]].
      * specialize (Hle (Z.max x b) (or_introl eq_refl)). lia.
      * specialize (Hle (Z.max a x) (or_introl eq_refl)). lia.
      * apply Hle. right. exact Hx.
Qed.

Lemma py_min_ext l1 l2 :
  l1 <> [] -> (forall x, In x l1 <-> In x l2) -> py_min l1 = py_min l2.
Proof.
  intros Hne Hext.
  destruct l1 as [|a1 l1]; [congruence|].
  destruct l2 as [|a2 l2]; [exfalso; apply (Hext a1); left; reflexivity|].
  unfold py_min.
  destruct (fold_min_spec l1 a1) as [Hin1 Hle1].
  destruct (fold_min_spec l2 a2) as [Hin2 Hle2].
  apply Z.le_antisymm.
  - apply Hle1, Hext, Hin2.
  - apply Hle2, Hext, Hin1.
Qed.

Lemma py_max_ext l1 l2 :
  l1 <> [] -> (forall x, In x l1 <-> In x l2) -> py_max l1 = py_max l2.
Proof.
  intros Hne Hext.
  destruct l1 as [|a1 l1]; [congruence|].
  destruct l2 as [|a2 l2]; [exfalso; apply (Hext a1); left; reflexivity|].
  unfold py_max.
  destruct (fold_max_spec l1 a1) as [Hin1 Hle1].
  destruct (fold_max_spec l2 a2) as [Hin2 Hle2].
  apply Z.le_antisymm.
  - apply Hle2, Hext, Hin1.
  - apply Hle1, Hext, Hin2.
Qed.

Lemma in_hits k mp rp :
  In k (hits mp rp) <-> In k mp /\ existsb (aligned k) rp = true.
Proof.
  unfold hits. rewrite in_flat_map. split.
  - intros [mv [Hmv Hin]]. apply in_flat_map in Hin as [rv [Hrv Hk]].
    destruct (aligned mv rv) eqn:E; [|destruct Hk].
    destruct Hk as [<-|[]]. split; [exact Hmv|].
    apply existsb_exists. exists rv. auto.
  - intros [Hk Hex]. apply existsb_exists in Hex as [rv [Hrv Hal]].
    exists k. split; [exact Hk|]. apply in_flat_map. exists rv.
    rewrite Hal. simpl. auto.
Qed.

Lemma in_events pts ext m o k s :
  In (k, s) (events pts ext m o)
  <-> exists r, In r o /\ partner pts m k r = true /\ In k (pts m) /\ s = ext r.
Proof.
  unfold events, partner. rewrite in_flat_map. split.
  - intros [r [Hr Hin]].
    destruct (bool_decide (r = m)) eqn:E; [destruct Hin|].
    apply in_map_iff in Hin as [k' [Heq Hk']]. inversion Heq; subst.
    apply in_hits in Hk' as [Hk Hex].
    exists r. rewrite E, Hex. auto.
  - intros [r (Hr & Hp & Hk & ->)]. exists r. split; [exact Hr|].
    apply andb_true_iff in Hp as [Hne Hex].
    destruct (bool_decide (r = m)); [discriminate|].
    apply in_map_iff. exists k. split; [reflexivity|].
    apply in_hits. auto.
Qed.

Lemma partners_nonempty pts m o k :
  partners pts m o k <> [] <-> exists r, In r o /\ partner pts m k r = true.
Proof.
  unfold partners. split.
  - intros Hne. destruct (List.filter (partner pts m k) o) as [|r l] eqn:E; [congruence|].
    exists r. apply filter_In. rewrite E. left. reflexivity.
  - intros [r Hr] Hnil. apply filter_In in Hr. rewrite Hnil in Hr. destruct Hr.
Qed.

Lemma axis_keys pts ext m o k :
  In k (map fst (axis_matches pts ext m o))
  <-> In k (pts m) /\ partners pts m o k <> [].
Proof.
  rewrite axis_matches_events, record_all_keys, partners_nonempty, in_map_iff.
  split.
  - intros [[[k' s] [Hk He]]|[]]. simpl in Hk. subst k'.
    apply in_events in He as [r (Hr & Hp & Hk & _)]. eauto.
  - intros [Hk [r [Hr Hp]]]. left. exists (k, ext r). split; [reflexivity|].
    apply in_events. eauto.
Qed.

Lemma axis_NoDup pts ext m o : NoDup (map fst (axis_matches pts ext m o)).
Proof. rewrite axis_matches_events. apply record_all_NoDup. constructor. Qed.

(** The spans stored under a key and the spans the specification names have
    the same bounds at either end ([proj] picks the end). *)
Lemma axis_span_elements pts ext m o k (proj : span -> Z) x :
  In k (pts m) -> partners pts m o k <> [] ->
  In x (proj (ext m) :: map (fun r => proj (ext r)) (partners pts m o k))
  <-> In x (map proj (spans_of k (axis_matches pts ext m o))).
Proof.
  intros Hk Hne. apply partners_nonempty in Hne as [r0 [Hr0 Hp0]].
  rewrite axis_matches_events, spans_of_record_all.
  change (spans_of k []) with (@nil span). rewrite app_nil_l. split.
  - intros Hx. apply in_map_iff.
    assert (exists r, In r o /\ partner pts m k r = true
                      /\ (x = proj (ext m) \/ x = proj (ext r)))
      as [r (Hr & Hp & Hcase)].
    { destruct Hx as [<-|Hx]; [exists r0; auto|].
      apply in_map_iff in Hx as [r [<- Hr]].
      apply filter_In in Hr as [Hr Hp]. exists r. auto. }
    exists (if decide (x = proj (ext m)) then ext m else ext r). split.
    + destruct (decide (x = proj (ext m))); [congruence|]. destruct Hcase; congruence.
    + apply in_flat_map. exists (k, ext r). split.
      * apply in_events. eauto.
      * simpl. rewrite Z.eqb_refl.
        destruct (decide (x = proj (ext m))); simpl; auto.
  - intros Hx. apply in_map_iff in Hx as [s [<- Hs]].
    apply in_flat_map in Hs as [[k' s'] [He Hs]].
    simpl in Hs. destruct (Z.eqb_spec k k') as [<-|]; [|destruct Hs].
    apply in_events in He as [r (Hr & Hp & _ & ->)].
    destruct Hs as [<-|[<-|[]]]; [left; reflexivity|].
    right. apply in_map_iff. exists r. split; [reflexivity|].
    apply filter_In. auto.
Qed.

Lemma axis_entry pts ext m o k l :
  In (k, l) (axis_matches pts ext m o)
  <-> In k (pts m) /\ partners pts m o k <> []
      /\ l = spans_of k (axis_matches pts ext m o).
Proof.
  split.
  - intros Hin.
    assert (In k (map fst (axis_matches pts ext m o))) as Hk.
    { change k with (fst (k, l)). apply in_map, Hin. }
    apply axis_keys in Hk as [Hk Hne].
    repeat split; auto. apply entry_spans; [apply axis_NoDup | exact Hin].
  - intros (Hk & Hne & ->). apply key_entry, axis_keys. auto.
Qed.

Lemma axis_bounds pts ext m o k :
  In k (pts m) -> partners pts m o k <> [] ->
  py_min (map fst (spans_of k (axis_matches pts ext m o))) = lower pts ext m o k
  /\ py_max (map snd (spans_of k (axis_matches pts ext m o))) = upper pts ext m o k.
Proof.
  intros Hk Hne. unfold lower, upper. split; symmetry.
  - apply py_min_ext; [discriminate|]. intros x.
    apply (axis_span_elements pts ext m o k fst x Hk Hne).
  - apply py_max_ext; [discriminate|]. intros x.
    apply (axis_span_elements pts ext m o k snd x Hk Hne).
Qed.

Lemma vertical_guides_keys m o :
  map gx1 (vertical_guides m o) = map fst (axis_matches points_x span_y m o).
Proof.
  unfold vertical_guides. rewrite collect_axes. simpl.
  rewrite map_map. apply map_ext. intros [k l]. reflexivity.
Qed.

Lemma horizontal_guides_keys m o :
  map gy1 (horizontal_guides m o) = map fst (axis_matches points_y span_x m o).
Proof.
  unfold horizontal_guides. rewrite collect_axes. simpl.
  rewrite map_map. apply map_ext. intros [k l]. reflexivity.
Qed.

Lemma in_vertical_guides m o g :
  In g (vertical_guides m o)
  <-> exists k, In k (points_x m) /\ partners points_x m o k <> []
                /\ g = vertical_guide m o k.
Proof.
  unfold vertical_guides. rewrite collect_axes. simpl. rewrite in_map_iff. split.
  - intros [[k l] [<- Hin]]. apply axis_entry in Hin as (Hk & Hne & ->).
    exists k. repeat split; auto. unfold vertical_line, vertical_guide.
    destruct (axis_bounds points_x span_y m o k Hk Hne) as [-> ->]. reflexivity.
  - intros [k (Hk & Hne & ->)].
    exists (k, spans_of k (axis_matches points_x span_y m o)). split.
    + unfold vertical_line, vertical_guide.
      destruct (axis_bounds points_x span_y m o k Hk Hne) as [-> ->]. reflexivity.
    + apply axis_entry. auto.
Qed.

Lemma in_horizontal_guides m o g :
  In g (horizontal_guides m o)
  <-> exists k, In k (points_y m) /\ partners points_y m o k <> []
                /\ g = horizontal_guide m o k.
Proof.
  unfold horizontal_guides. rewrite collect_axes. simpl. rewrite in_map_iff. split.
  - intros [[k l] [<- Hin]]. apply axis_entry in Hin as (Hk & Hne & ->).
    exists k. repeat split; auto. unfold horizontal_line, horizontal_guide.
    destruct (axis_bounds points_y span_x m o k Hk Hne) as [-> ->]. reflexivity.
  - intros [k (Hk & Hne & ->)].
    exists (k, spans_of k (axis_matches points_y span_x m o)). split.
    + unfold horizontal_line, horizontal_guide.
      destruct (axis_bounds points_y span_x m o k Hk Hne) as [-> ->]. reflexivity.
    + apply axis_entry. auto.
Qed.

(** Among elements with pairwise different keys, the one with a given key
    is alone. *)
Lemma filter_none {A} (p : A -> bool) (l : list A) :
  (forall c, In c l -> p c = false) -> List.filter p l = [].
Proof.
  induction l as [|b l IH]; simpl; intros H; [reflexivity|].
  rewrite (H b (or_introl eq_refl)). apply IH. intros c Hc. apply H. right. exact Hc.
Qed.

Lemma filter_unique_key {A} (f : A -> Z) (l : list A) (a : A) :
  NoDup (map f l) -> In a l -> List.filter (fun b => f b =? f a) l = [a].
Proof.
  induction l as [|b l IH]; simpl; intros Hnd Hin; [tauto|].
  apply NoDup_cons in Hnd as [Hb Hnd]. rewrite list_elem_of_In in Hb.
  destruct Hin as [->|Hin].
  - rewrite Z.eqb_refl. f_equal. apply filter_none. intros c Hc.
    apply Z.eqb_neq. intros Heq. apply Hb. rewrite <- Heq. apply in_map, Hc.
  - destruct (Z.eqb_spec (f b) (f a)) as [Heq|Hne]; [|auto].
    exfalso. apply Hb. rewrite Heq. apply in_map, Hin.
Qed.

Lemma update_guides_halves m o :
  update_guides m o = vertical_guides m o ++ horizontal_guides m o.
Proof.
  unfold update_guides, vertical_guides, horizontal_guides.
  destruct (collect m o) as [mx my]. reflexivity.
Qed.

Lemma aligned_refl k : aligned k k = true.
Proof. unfold aligned, tol. apply Z.leb_le. lia. Qed.

Lemma collect_skips_equal m o acc :
  fold_left (visit m) o acc
  = fold_left (visit m) (List.filter (fun r => negb (bool_decide (r = m))) o) acc.
Proof.
  revert acc. induction o as [|r o IH]; intros acc; simpl; [reflexivity|].
  unfold visit at 2. destruct (bool_decide (r = m)) eqn:E; simpl.
  - apply IH.
  - rewrite IH. unfold visit at 3. rewrite E. reflexivity.
Qed.

(** C1.  [update_guides] yields the vertical guides followed by the
    horizontal ones.  The vertical guides have pairwise different
    x-coordinates, and a guide is among them exactly when it is the guide of
    the specification at some moving X-coordinate (left, centre or right) that
    lies within the tolerance of a coordinate of some other rectangle: it
    stands at that coordinate and runs from the least top to the greatest
    bottom of the moving rectangle and of all rectangles aligned at it.  The
    same holds for the horizontal guides.  In particular, when the two other
    frames share the moving frame's left edge there is exactly one vertical
    guide at that edge, and when the moving frame's right edge meets the left
    edge of the only other frame, the guide at that edge is the single line
    spanning both vertical extents.  Other rectangles are rectangles that
    differ from the moving one; coordinates are in half pixels. *)
Theorem update_guides_one_per_coordinate (moving : QRect) (others : list QRect) :
  update_guides moving others
    = vertical_guides moving others ++ horizontal_guides moving others
  /\ NoDup (map gx1 (vertical_guides moving others))
  /\ (forall g, In g (vertical_guides moving others)
        <-> exists k, In k (points_x moving)
                      /\ partners points_x moving others k <> []
                      /\ g = vertical_guide moving others k)
  /\ NoDup (map gy1 (horizontal_guides moving others))
  /\ (forall g, In g (horizontal_guides moving others)
        <-> exists k, In k (points_y moving)
                      /\ partners points_y moving others k <> []
                      /\ g = horizontal_guide moving others k)
  /\ (forall a b, others = [a; b] -> a <> moving -> b <> moving ->
        rx a = rx moving -> rx b = rx moving ->
        List.filter (fun g => gx1 g =? hp (rx moving)) (vertical_guides moving others)
        = [vertical_guide moving others (hp (rx moving))])
  /\ (forall a, others = [a] -> a <> moving ->
        rx moving + rwidth moving = rx a ->
        List.filter (fun g => gx1 g =? hp (rx a)) (vertical_guides moving others)
        = [mkGuide (hp (rx a)) (Z.min (hp (ry moving)) (hp (ry a)))
                   (hp (rx a))
                   (Z.max (hp (ry moving + rheight moving)) (hp (ry a + rheight a)))]).
Proof.
  split; [apply update_guides_halves|].
  split; [rewrite vertical_guides_keys; apply axis_NoDup|].
  split; [apply in_vertical_guides|].
  split; [rewrite horizontal_guides_keys; apply axis_NoDup|].
  split; [apply in_horizontal_guides|].
  assert (forall k r, In r others -> r <> moving -> In k (points_x moving) ->
            In k (points_x r) ->
            List.filter (fun g => gx1 g =? k) (vertical_guides moving others)
            = [vertical_guide moving others k]) as Hone.
  { intros k r Hr Hne Hk Hkr.
    apply (filter_unique_key gx1 _ (vertical_guide moving others k)).
    - rewrite vertical_guides_keys. apply axis_NoDup.
    - apply in_vertical_guides. exists k. repeat split; auto.
      apply partners_nonempty. exists r. split; [exact Hr|].
      unfold partner. rewrite bool_decide_eq_false_2 by exact Hne.
      cbn [negb andb]. apply existsb_exists. exists k. split; [exact Hkr | apply aligned_refl]. }
  split.
  - intros a b -> Ha Hb Hxa Hxb.
    apply (Hone _ a); simpl; auto. rewrite Hxa. auto.
  - intros a -> Ha Hx.
    rewrite (Hone (hp (rx a)) a); simpl; auto.
    + unfold vertical_guide, lower, upper, partners, partner. simpl.
      rewrite bool_decide_eq_false_2 by exact Ha.
      rewrite aligned_refl. reflexivity.
    + rewrite Hx. auto.
Qed.

Lemma update_guides_one_per_coordinate_witness :
  List.filter (fun g => gx1 g =? 0)
    (vertical_guides Examples.guide_moving [Examples.guide_a; Examples.guide_b])
  = [mkGuide 0 0 0 940]
  /\ List.filter (fun g => gx1 g =? 200)
       (vertical_guides Examples.guide_moving [Examples.guide_c])
     = [mkGuide 200 0 200 300].
Proof.
  split.
  - destruct (update_guides_one_per_coordinate Examples.guide_moving
                [Examples.guide_a; Examples.guide_b]) as (_ & _ & _ & _ & _ & H & _).
    apply (H Examples.guide_a Examples.guide_b);
      [reflexivity | discriminate | discriminate | reflexivity | reflexivity].
  - destruct (update_guides_one_per_coordinate Examples.guide_moving
                [Examples.guide_c]) as (_ & _ & _ & _ & _ & _ & H).
    apply (H Examples.guide_c); [reflexivity | discriminate | reflexivity].
Defined.

(** C10.  A rectangle of the list that equals the moving rectangle is
    skipped: the guides are those of the list without such rectangles.  A
    list made only of rectangles equal to the moving one yields no guide,
    although every coordinate of the moving rectangle is within the tolerance
    of itself. *)
Theorem update_guides_skips_equal_rect (moving : QRect) (others : list QRect) :
  update_guides moving others
    = update_guides moving
        (List.filter (fun r => negb (bool_decide (r = moving))) others)
  /\ ((forall r, In r others -> r = moving) -> update_guides moving others = [])
  /\ update_guides moving [moving] = []
  /\ (forall k, aligned k k = true).
Proof.
  assert (update_guides moving others
          = update_guides moving
              (List.filter (fun r => negb (bool_decide (r = moving))) others)) as Heq.
  { unfold update_guides, collect. rewrite collect_skips_equal. reflexivity. }
  split; [exact Heq|]. split; [|split; [|apply aligned_refl]].
  - intros Hall. rewrite Heq. rewrite filter_none; [reflexivity|].
    intros r Hr. rewrite (Hall r Hr). rewrite bool_decide_eq_true_2; reflexivity.
  - unfold update_guides, collect. simpl. unfold visit.
    rewrite bool_decide_eq_true_2; reflexivity.
Qed.

Lemma update_guides_skips_equal_rect_witness :
  update_guides Examples.guide_moving [Examples.guide_moving; Examples.guide_moving] = [].
Proof.
  apply (proj1 (proj2 (update_guides_skips_equal_rect Examples.guide_moving
                         [Examples.guide_moving; Examples.guide_moving]))).
  intros r [<-|[<-|[]]]; reflexivity.
Defined.

End GuideFacts.

(** ** Geometry engine *)

Section GeometryFacts.

Lemma constrain_range n :
  Config.MIN_SIZE <= Frame.constrain n <= Config.MAX_SIZE.
Proof. unfold Frame.constrain, Config.MIN_SIZE, Config.MAX_SIZE. lia. Qed.

Lemma constrain_id n :
  Config.MIN_SIZE <= n <= Config.MAX_SIZE -> Frame.constrain n = n.
Proof. unfold Frame.constrain, Config.MIN_SIZE, Config.MAX_SIZE. lia. Qed.

Lemma setGeometry_size_ok nx ny nw nh f : size_ok (Frame.setGeometry nx ny nw nh f).
Proof. split; apply constrain_range. Qed.

(** C2.  A wheel tick and a drag in any mode other than MOVE leave the frame
    with a width and a height between MIN_SIZE (10) and MAX_SIZE (4000), for
    every wheel event, every pointer position and every start of the drag. *)
Theorem resize_stays_in_range (desk : Desktop) (f : MeasureFrame) :
  (forall event : WheelEvent,
      10 <= Frame.width (Frame.wheelEvent desk event f) <= 4000
      /\ 10 <= Frame.height (Frame.wheelEvent desk event f) <= 4000)
  /\ (forall curr_mouse : QPoint,
        drag_mode (drag f) <> MOVE ->
        10 <= Frame.width (Frame._perform_drag desk curr_mouse f) <= 4000
        /\ 10 <= Frame.height (Frame._perform_drag desk curr_mouse f) <= 4000).
Proof.
  split.
  - intros event. unfold Frame.wheelEvent. apply setGeometry_size_ok.
  - intros curr_mouse Hmode. unfold Frame._perform_drag.
    rewrite bool_decide_eq_false_2 by exact Hmode.
    repeat match goal with |- context [let '(_, _) := ?p in _] => destruct p end.
    apply setGeometry_size_ok.
Qed.

Lemma resize_stays_in_range_witness :
  let f := Examples.dragging RESIZE_LEFT (mkQPoint 100 200) Examples.frame1 in
  10 <= Frame.width (Frame._perform_drag Examples.hd_desk (mkQPoint 1000000 200) f) <= 4000
  /\ 10 <= Frame.height (Frame._perform_drag Examples.hd_desk (mkQPoint 1000000 200) f) <= 4000.
Proof.
  apply (proj2 (resize_stays_in_range Examples.hd_desk
                 (Examples.dragging RESIZE_LEFT (mkQPoint 100 200) Examples.frame1))).
  discriminate.
Defined.

Lemma clamp_inside (sl sw w p : Z) :
  w <= sw ->
  sl <= Z.max sl (Z.min (sl + sw - 1 - w) p)
  /\ Z.max sl (Z.min (sl + sw - 1 - w) p) + w - 1 <= sl + sw - 1.
Proof. lia. Qed.

Lemma move_inside (s : QRect) (f : MeasureFrame) (nx ny : Z) :
  Frame.width f <= rwidth s -> Frame.height f <= rheight s ->
  inside
    (geometry
       (Frame.move
          (Z.max (Rect.left s) (Z.min (Rect.right s - Frame.width f) nx))
          (Z.max (Rect.top s) (Z.min (Rect.bottom s - Frame.height f) ny)) f)) s.
Proof.
  intros Hw Hh. unfold inside, Rect.left, Rect.top, Rect.right, Rect.bottom. simpl.
  unfold Frame.width, Frame.height in *.
  destruct (clamp_inside (rx s) (rwidth s) (rwidth (geometry f)) nx Hw).
  destruct (clamp_inside (ry s) (rheight s) (rheight (geometry f)) ny Hh).
  repeat split; lia.
Qed.

Lemma find_update_frame id g l f :
  (forall f, uid (g f) = uid f) ->
  Manager.find_frame id l = Some f ->
  Manager.find_frame id (Manager.update_frame id g l) = Some (g f).
Proof.
  intros Hg. unfold Manager.find_frame, Manager.update_frame.
  induction l as [|a l IH]; simpl; [discriminate|].
  destruct (Nat.eqb (uid a) id) eqn:E; simpl.
  - intros [= ->]. rewrite Hg, E. reflexivity.
  - rewrite E. exact IH.
Qed.

(** C3, as the code has it.  After a drag in MOVE mode, and after a nudge of
    an unlocked frame by one or ten pixels in any direction, the frame lies
    inside the available rectangle of the screen the operation works with,
    provided the frame is no wider and no taller than that rectangle. *)
Theorem move_stays_inside_screen (desk : Desktop) :
  (forall (curr_mouse : QPoint) (f : MeasureFrame),
      drag_mode (drag f) = MOVE ->
      Frame.width f <= rwidth (screen_rect_at desk curr_mouse) ->
      Frame.height f <= rheight (screen_rect_at desk curr_mouse) ->
      inside (geometry (Frame._perform_drag desk curr_mouse f))
             (screen_rect_at desk curr_mouse))
  /\ (forall (shift : bool) (id : nat) (direction : string)
             (st : FrameManager) (f : MeasureFrame),
        Manager.find_frame id (frames st) = Some f ->
        is_locked f = false ->
        Frame.width f <= rwidth (screen_rect_at desk (Rect.center (geometry f))) ->
        Frame.height f <= rheight (screen_rect_at desk (Rect.center (geometry f))) ->
        exists f',
          Manager.find_frame id
            (frames (Manager._handle_move_frame desk shift id direction st))
          = Some f'
          /\ inside (geometry f') (screen_rect_at desk (Rect.center (geometry f)))).
Proof.
  split.
  - intros curr_mouse f Hmode Hw Hh. unfold Frame._perform_drag.
    rewrite bool_decide_eq_true_2 by exact Hmode.
    apply move_inside; assumption.
  - intros shift id direction st f Hf Hlock Hw Hh.
    unfold Manager._handle_move_frame. rewrite Hf, Hlock.
    eexists. split.
    + simpl. apply find_update_frame; [reflexivity | exact Hf].
    + apply move_inside; assumption.
Qed.

Lemma move_stays_inside_screen_witness :
  inside
    (geometry
       (Frame._perform_drag Examples.hd_desk (mkQPoint 5000 (-300))
          (Examples.dragging MOVE (mkQPoint 150 150) Examples.frame1)))
    (mkQRect 0 0 1920 1040).
Proof.
  apply (proj1 (move_stays_inside_screen Examples.hd_desk)
           (mkQPoint 5000 (-300))
           (Examples.dragging MOVE (mkQPoint 150 150) Examples.frame1));
    [reflexivity | vm_compute; discriminate | vm_compute; discriminate].
Defined.

(** C3 as stated fails: a frame wider than the screen is put at the screen's
    left edge by a nudge and reaches past its right edge. *)
Lemma move_containment_counterexample :
  exists f',
    Manager.find_frame 0
      (frames (Manager._handle_move_frame Examples.hd_desk false 0 "right"
                 (Examples.manager_of [Examples.broad_frame])))
    = Some f'
    /\ ~ inside (geometry f') (availableGeometry Examples.hd_screen).
Proof.
  eexists. split; [vm_compute; reflexivity|].
  unfold inside. vm_compute. intros (_ & _ & H & _). apply H. reflexivity.
Qed.

(** C9, as the code has it.  A width typed into the sidebar sets the width to
    the value clamped to [MIN_SIZE .. min(MAX_SIZE, screen right - x)], the
    lower bound winning when the interval is empty, and leaves the origin and
    the height alone; a height does the same on the other axis. *)
Theorem dimension_input_sets_one_axis (desk : Desktop) (f : MeasureFrame) (value : Z) :
  size_ok f ->
  let s_rect := screen_rect_at desk (Rect.center (geometry f)) in
  (let f' := Frame._on_dimension_input desk "width" value f in
   Frame.width f'
     = Z.max Config.MIN_SIZE
         (Z.min value (Z.min Config.MAX_SIZE (Rect.right s_rect - Frame.x f)))
   /\ Frame.height f' = Frame.height f
   /\ Frame.x f' = Frame.x f /\ Frame.y f' = Frame.y f)
  /\ (let f' := Frame._on_dimension_input desk "height" value f in
      Frame.height f'
        = Z.max Config.MIN_SIZE
            (Z.min value (Z.min Config.MAX_SIZE (Rect.bottom s_rect - Frame.y f)))
      /\ Frame.width f' = Frame.width f
      /\ Frame.x f' = Frame.x f /\ Frame.y f' = Frame.y f).
Proof.
  intros [Hw Hh] s_rect. unfold Frame._on_dimension_input. fold s_rect.
  cbn [String.eqb Ascii.eqb Bool.eqb]. cbv zeta.
  unfold Frame.resize, Frame.width, Frame.height, Frame.x, Frame.y in *. simpl.
  rewrite (constrain_id (rheight (geometry f))) by exact Hh.
  rewrite (constrain_id (rwidth (geometry f))) by exact Hw.
  unfold Frame.constrain, Config.MIN_SIZE, Config.MAX_SIZE.
  repeat split; lia.
Qed.

Lemma dimension_input_sets_one_axis_witness :
  Frame.width (Frame._on_dimension_input Examples.hd_desk "width" 90000 Examples.frame1)
  = 1819
  /\ Frame.height (Frame._on_dimension_input Examples.hd_desk "width" 90000 Examples.frame1)
     = 250.
Proof.
  assert (size_ok Examples.frame1) as Hok.
  { split; vm_compute; split; discriminate. }
  destruct (dimension_input_sets_one_axis Examples.hd_desk Examples.frame1 90000 Hok)
    as [(Hw & Hh & _) _].
  split; [exact Hw | exact Hh].
Defined.

(** C9 as stated fails: on a screen wider than MAX_SIZE the entered width
    5000 fits between MIN_SIZE and the screen bound, yet the frame gets
    MAX_SIZE. *)
Lemma dimension_input_counterexample :
  Frame.width (Frame._on_dimension_input Examples.wide_desk "width" 5000 Examples.frame1)
  <> Z.max Config.MIN_SIZE
       (Z.min 5000
          (Rect.right (availableGeometry Examples.wide_screen)
           - Frame.x Examples.frame1)).
Proof. vm_compute. discriminate. Qed.

End GeometryFacts.

(** ** Spacing overlay *)

Section SpacingFacts.
Import SpacingOverlay.

(** When both rectangles are non-null, a horizontal measurement is drawn
    exactly when [QRect.right] of one lies left of [QRect.left] of the
    other. *)
Lemma h_line_drawn (r1 r2 : QRect) :
  h_line r1 r2 <> None
  <-> Rect.right r1 < Rect.left r2 \/ Rect.left r1 > Rect.right r2.
Proof.
  unfold h_line.
  destruct (Z.ltb_spec (Rect.right r1) (Rect.left r2));
    [split; [auto | discriminate]|].
  destruct (Z.gtb_spec (Rect.left r1) (Rect.right r2));
    [split; [intros _; right; lia | discriminate]|].
  split; [congruence | lia].
Qed.

(** C4, at the rectangles the specification names: source (0, 0, 100, 100) and
    target (200, 0, 100, 100).  One horizontal measurement and no vertical one
    are drawn; the measurement runs from x = 99 to x = 200 on the line y = 49
    and is labelled 101, because [QRect.right()] is [x + width - 1] and
    [QRect.center()] is the midpoint of 0 and 99. *)
Theorem spacing_example_measures_101 :
  paintEvent (Some (mkQRect 0 0 100 100)) (Some (mkQRect 200 0 100 100))
  = [mkMeasurement (99, 49, 200, 49) 101 true].
Proof. reflexivity. Qed.

End SpacingFacts.

(** ** Persistence *)

Section PersistenceFacts.
Import Models ProjectSerializer.

Lemma frame_of_asdict (f : FrameModel) :
  fm_radii f <> PNone -> frame_of (asdict f) = Ok f.
Proof.
  intros Hr. destruct f as [i t x y w h bg bd r lk vs fe]. simpl in Hr.
  destruct r; [congruence | vm_compute; reflexivity ..].
Qed.

Lemma frames_of_asdict (l : list FrameModel) :
  (forall f, In f l -> fm_radii f <> PNone) ->
  frames_of (map asdict l) = Ok l.
Proof.
  induction l as [|f l IH]; intros Hall; cbn [frames_of map]; [reflexivity|].
  rewrite frame_of_asdict by (apply Hall; left; reflexivity).
  rewrite IH by (intros g Hg; apply Hall; right; exact Hg). reflexivity.
Qed.

Lemma load_save (dio_path : string -> string) fs path (p : ProjectModel) :
  (forall f, In f (pm_frames p) -> fm_radii f <> PNone) ->
  load (save dio_path path p fs) (dio_path path) = Ok p.
Proof.
  intros Hall. unfold load, save. rewrite lookup_insert_eq.
  destruct p as [v av ca fl]. simpl in Hall.
  assert (ProjectValidator.validate (to_dict (mkProjectModel v av ca fl)) = Ok ())
    as -> by (vm_compute; reflexivity).
  cbn [mbind result_bind]. unfold to_dict.
  cbn [version app_version created_at pm_frames].
  set (d := [("version", v); ("app_version", av); ("created_at", ca);
             ("frames", PList (map asdict fl))]).
  assert (Py.dict_get "frames" d = Some (PList (map asdict fl)))
    as -> by (vm_compute; reflexivity).
  assert (Py.dict_get "version" d = Some v) as -> by (vm_compute; reflexivity).
  assert (arg d "app_version" (PStr "unknown") = av) as -> by (vm_compute; reflexivity).
  assert (arg d "created_at" (PStr "") = ca) as -> by (vm_compute; reflexivity).
  rewrite frames_of_asdict by exact Hall. reflexivity.
Qed.

(** C5.  Saving a project and loading the file that was written returns a
    project with as many frames, in the same order, each with the geometry,
    colours, radii and flags of the frame at the same position.  The frames
    are values of the dataclass as its constructor leaves them: [radii] is
    never [None]. *)
Theorem save_load_round_trip (dio_path : string -> string)
    (fs : gmap string pyval) (path : string) (p : ProjectModel) :
  (forall f, In f (pm_frames p) -> fm_radii f <> PNone) ->
  exists p',
    load (save dio_path path p fs) (dio_path path) = Ok p'
    /\ length (pm_frames p') = length (pm_frames p)
    /\ forall (i : nat) (f : FrameModel),
         pm_frames p !! i = Some f ->
         exists f',
           pm_frames p' !! i = Some f'
           /\ fm_x f' = fm_x f /\ fm_y f' = fm_y f
           /\ fm_width f' = fm_width f /\ fm_height f' = fm_height f
           /\ fm_bg_color f' = fm_bg_color f
           /\ fm_border_color f' = fm_border_color f
           /\ fm_radii f' = fm_radii f
           /\ fm_locked f' = fm_locked f
           /\ fm_visible f' = fm_visible f
           /\ fm_fill_enabled f' = fm_fill_enabled f.
Proof.
  intros Hall. exists p. split; [apply load_save, Hall|].
  split; [reflexivity|]. intros i f Hi. exists f. tauto.
Qed.

Lemma save_load_round_trip_witness :
  exists p',
    load (save (fun path => path) "layout.dio" Examples.project ∅) "layout.dio" = Ok p'
    /\ length (pm_frames p') = 2%nat.
Proof.
  destruct (save_load_round_trip (fun path => path) ∅ "layout.dio" Examples.project)
    as (p' & Hload & Hlen & _).
  - intros f [<-|[<-|[]]]; discriminate.
  - exists p'. split; [exact Hload | exact Hlen].
Defined.

End PersistenceFacts.

(** ** Frame manager *)

Section ManagerFacts.
Import Manager.

Lemma validate_rejects (d : list (string * pyval)) :
  Py.dict_get "version" d = None
  \/ Py.dict_get "frames" d = None
  \/ (exists v, Py.dict_get "frames" d = Some v /\ forall l, v <> PList l) ->
  exists e, ProjectValidator.validate (PDict d) = Raise e.
Proof.
  intros H. unfold ProjectValidator.validate, ProjectValidator.REQUIRED_KEYS, Py.contains.
  cbn [List.filter].
  destruct (Py.dict_get "version" d) as [v|] eqn:Ev;
    destruct (Py.dict_get "frames" d) as [fr|] eqn:Ef; cbn [negb];
    try (eexists; reflexivity).
  destruct H as [H|[H|(v' & [= <-] & Hl)]]; try discriminate.
  destruct fr; try (eexists; reflexivity).
  exfalso. eapply Hl. reflexivity.
Qed.

(** C6, as the code has it.  When the top-level object of the project file
    lacks "version" or "frames", or its "frames" is not a list, the import
    reports an error and returns the manager it was given: frames, selection
    and project path are untouched. *)
Theorem import_rejects_invalid_structure (fs : gmap string pyval) (path : string)
    (st : FrameManager) (d : list (string * pyval)) :
  fs !! path = Some (PDict d) ->
  Py.dict_get "version" d = None
  \/ Py.dict_get "frames" d = None
  \/ (exists v, Py.dict_get "frames" d = Some v /\ forall l, v <> PList l) ->
  exists e,
    import_design_from_path fs path st = (st, Some e)
    /\ frames (fst (import_design_from_path fs path st)) = frames st
    /\ selected_frame (fst (import_design_from_path fs path st)) = selected_frame st
    /\ project_path (fst (import_design_from_path fs path st)) = project_path st.
Proof.
  intros Hfile Hbad. destruct (validate_rejects d Hbad) as [e He].
  exists e. unfold import_design_from_path, ProjectSerializer.load.
  rewrite Hfile, He. cbn [mbind result_bind fst]. auto.
Qed.

Lemma import_rejects_invalid_structure_witness :
  exists e,
    import_design_from_path Examples.disk "old.dio" Examples.manager1
    = (Examples.manager1, Some e).
Proof.
  destruct (import_rejects_invalid_structure Examples.disk "old.dio"
              Examples.manager1 [("frames", PList [])]) as (e & He & _).
  - vm_compute. reflexivity.
  - left. reflexivity.
  - exists e. exact He.
Defined.

(** C6 as stated fails for a wrongly typed frame field: the file passes the
    validator, the current frames are closed and the path replaced, and only
    then [setGeometry] rejects the string given as [x]. *)
Lemma import_bad_field_counterexample :
  exists st',
    import_design_from_path Examples.disk "bad.dio" Examples.manager1
    = (st', Some TypeError)
    /\ frames st' <> frames Examples.manager1
    /\ selected_frame st' <> selected_frame Examples.manager1
    /\ project_path st' <> project_path Examples.manager1.
Proof.
  eexists. split; [vm_compute; reflexivity|].
  repeat split; vm_compute; discriminate.
Qed.





Lemma renumber_from_lookup (l : list MeasureFrame) (start : Z) (i : nat) (f : MeasureFrame) :
  l !! i = Some f ->
  renumber_from start l !! i = Some (Frame.set_frame_number (start + Z.of_nat i) f).
Proof.
  revert start i. induction l as [|a l IH]; intros start i; [discriminate|].
  destruct i as [|i]; simpl.
  - intros [= ->]. rewrite Z.add_0_r. reflexivity.
  - intros Hi. rewrite (IH (start + 1) i Hi). do 2 f_equal. lia.
Qed.

Lemma renumber_from_uids (l : list MeasureFrame) (start : Z) :
  map uid (renumber_from start l) = map uid l.
Proof.
  revert start. induction l as [|a l IH]; intros start; simpl; [reflexivity|].
  rewrite IH. reflexivity.
Qed.

Lemma last_uid (l : list MeasureFrame) : uid <$> last l = last (map uid l).
Proof.
  induction l as [|a [|b l] IH]; try reflexivity. exact IH.
Qed.

Lemma remove_frame_uids (id : nat) (l : list MeasureFrame) :
  NoDup (map uid l) ->
  map uid (remove_frame id l)
  = List.filter (fun u => negb (Nat.eqb u id)) (map uid l).
Proof.
  induction l as [|a l IH]; simpl; intros Hnd; [reflexivity|].
  apply NoDup_cons in Hnd as [Ha Hnd]. rewrite list_elem_of_In in Ha.
  destruct (Nat.eqb_spec (uid a) id) as [Heq|Hne]; simpl.
  - symmetry. clear IH. induction l as [|b l IH]; simpl; [reflexivity|].
    simpl in Ha. apply NoDup_cons in Hnd as [_ Hnd].
    destruct (Nat.eqb_spec (uid b) id) as [Hb|Hb]; simpl.
    + exfalso. apply Ha. left. congruence.
    + f_equal. apply IH; tauto.
  - f_equal. apply IH, Hnd.
Qed.

(** C8.  Closing a frame leaves the other frames in their order (the uid of
    the closed frame is gone, for widgets with distinct identities).  If the
    closed frame was selected, the selection becomes the last remaining frame,
    or none; otherwise it stays.  The remaining frames are numbered 1, 2, ...
    in order, and a title changes, to "Frame" and the new number, exactly
    when it was "Frame" and the old number; any other title is kept.
    Closing the second of three frames named by default leaves "Frame 1" and
    "Frame 2". *)
Theorem closing_frame_renumbers (st : FrameManager) (id : nat) :
  (NoDup (map uid (frames st)) ->
   map uid (frames (_on_frame_closing id st))
   = List.filter (fun u => negb (Nat.eqb u id)) (map uid (frames st)))
  /\ selected_frame (_on_frame_closing id st)
     = (if bool_decide (selected_frame st = Some id)
        then uid <$> last (frames (_on_frame_closing id st))
        else selected_frame st)
  /\ length (frames (_on_frame_closing id st))
     = length (remove_frame id (frames st))
  /\ (forall (i : nat) (f : MeasureFrame),
        remove_frame id (frames st) !! i = Some f ->
        exists f',
          frames (_on_frame_closing id st) !! i = Some f'
          /\ uid f' = uid f /\ geometry f' = geometry f
          /\ frame_number f' = Z.of_nat i + 1
          /\ title f'
             = (if String.eqb (title f) ("Frame " +:+ Py.str_of_int (frame_number f))
                then "Frame " +:+ Py.str_of_int (Z.of_nat i + 1)
                else title f)
          /\ (title f <> "Frame " +:+ Py.str_of_int (frame_number f) ->
              title f' = title f))
  /\ map title (frames (_on_frame_closing 1 (Examples.manager_of Examples.three_frames)))
     = ["Frame 1"; "Frame 2"].
Proof.
  unfold _on_frame_closing. cbn [frames selected_frame _mark_dirty _renumber_frames with_frames].
  split; [|split; [|split; [|split]]].
  - intros Hnd. rewrite renumber_from_uids. apply remove_frame_uids, Hnd.
  - destruct (bool_decide (selected_frame st = Some id)); [|reflexivity].
    rewrite !last_uid, renumber_from_uids. reflexivity.
  - rewrite <- (length_map uid), renumber_from_uids, length_map. reflexivity.
  - intros i f Hi. eexists. split; [apply renumber_from_lookup, Hi|].
    cbn [Frame.set_frame_number uid geometry frame_number title].
    rewrite (Z.add_comm 1). repeat split.
    intros Hne. apply String.eqb_neq in Hne. rewrite Hne. reflexivity.
  - vm_compute. reflexivity.
Qed.

Lemma closing_frame_renumbers_witness :
  map uid (frames (_on_frame_closing 1 (Examples.manager_of Examples.three_frames)))
  = [0%nat; 2%nat].
Proof.
  apply (proj1 (closing_frame_renumbers (Examples.manager_of Examples.three_frames) 1)).
  vm_compute. repeat constructor; rewrite list_elem_of_In; simpl; intuition discriminate.
Defined.

End ManagerFacts.

(** ** More on persistence *)

Section PersistenceMore.
Import Models ProjectSerializer.

Lemma validate_ok_iff (d : list (string * pyval)) :
  ProjectValidator.validate (PDict d) = Ok ()
  <-> (exists v, Py.dict_get "version" d = Some v)
      /\ (exists l, Py.dict_get "frames" d = Some (PList l)).
Proof.
  unfold ProjectValidator.validate, ProjectValidator.REQUIRED_KEYS, Py.contains.
  cbn [List.filter].
  destruct (Py.dict_get "version" d) as [v|];
    destruct (Py.dict_get "frames" d) as [fr|]; cbn [negb].
  - destruct fr;
      (split; [try discriminate; intros _; eauto
              | try (intros [_ [l [=]]]); reflexivity]).
  - split; [discriminate | intros [_ [l [=]]]].
  - split; [discriminate | intros [[v [=]] _]].
  - split; [discriminate | intros [[v [=]] _]].
Qed.

(** [ProjectValidator.validate] accepts a top-level object exactly when it
    has a "version" entry and a "frames" entry that is a list. *)
Theorem validate_accepts_iff (d : list (string * pyval)) :
  ProjectValidator.validate (PDict d) = Ok ()
  <-> (exists v, Py.dict_get "version" d = Some v)
      /\ (exists l, Py.dict_get "frames" d = Some (PList l)).
Proof. apply validate_ok_iff. Qed.

Lemma post_init_radii (f : FrameModel) : fm_radii (post_init f) <> PNone.
Proof.
  unfold post_init. destruct (fm_radii f) eqn:E; simpl; rewrite ?E; discriminate.
Qed.

Lemma frame_of_radii (v : pyval) (f : FrameModel) :
  frame_of v = Ok f -> fm_radii f <> PNone.
Proof.
  unfold frame_of, FrameModel_init. destruct v; try discriminate.
  destruct (Py.dict_get "id" _); [|discriminate].
  intros [= <-]. apply post_init_radii.
Qed.

Lemma frames_of_spec (l : list pyval) (fl : list FrameModel) :
  frames_of l = Ok fl ->
  length fl = length l /\ forall f, In f fl -> fm_radii f <> PNone.
Proof.
  revert fl. induction l as [|v l IH]; intros fl; cbn [frames_of].
  - intros [= <-]. split; [reflexivity | intros f []].
  - destruct (frame_of v) as [f|e] eqn:Ef; [|discriminate].
    destruct (frames_of l) as [fl'|e]; [|discriminate].
    intros [= <-]. destruct (IH fl' eq_refl) as [Hlen Hall]. split.
    + simpl. rewrite Hlen. reflexivity.
    + intros g [<-|Hg]; [apply (frame_of_radii v), Ef | apply Hall, Hg].
Qed.

Lemma load_inv (fs : gmap string pyval) (path : string) (p : ProjectModel) :
  load fs path = Ok p ->
  exists d l,
    fs !! path = Some (PDict d)
    /\ Py.dict_get "frames" d = Some (PList l)
    /\ frames_of l = Ok (pm_frames p).
Proof.
  unfold load. destruct (fs !! path) as [raw|]; [|discriminate].
  destruct (ProjectValidator.validate raw); [|discriminate].
  cbn [mbind result_bind]. destruct raw as [| | | | |d]; try discriminate.
  destruct (Py.dict_get "frames" d) as [fr|] eqn:Efr; [|discriminate].
  destruct fr as [| | | |l|]; destruct (Py.dict_get "version" d); try discriminate.
  destruct (frames_of l) as [fl|] eqn:Efl; [|discriminate].
  cbn [mbind result_bind]. intros [= <-]. exists d, l. auto.
Qed.

(** Whatever the file holds, a project that [load] returns has one frame per
    entry of the file's "frames" list, and none of its frames has [radii]
    equal to [None]: [__post_init__] has put the zero radii there. *)
Theorem load_gives_constructed_frames (fs : gmap string pyval) (path : string)
    (p : ProjectModel) :
  load fs path = Ok p ->
  (forall f, In f (pm_frames p) -> fm_radii f <> PNone)
  /\ exists d l,
       fs !! path = Some (PDict d)
       /\ Py.dict_get "frames" d = Some (PList l)
       /\ length (pm_frames p) = length l.
Proof.
  intros Hload. destruct (load_inv fs path p Hload) as (d & l & Hf & Hd & Hfl).
  destruct (frames_of_spec l _ Hfl) as [Hlen Hall].
  split; [exact Hall|]. exists d, l. auto.
Qed.

Lemma load_gives_constructed_frames_witness :
  exists p,
    load (save (fun path => path) "layout.dio" Examples.project ∅) "layout.dio" = Ok p
    /\ forall f, In f (pm_frames p) -> fm_radii f <> PNone.
Proof.
  exists Examples.project.
  assert (load (save (fun path => path) "layout.dio" Examples.project ∅) "layout.dio"
          = Ok Examples.project) as H by (vm_compute; reflexivity).
  split; [exact H|].
  apply (proj1 (load_gives_constructed_frames _ _ _ H)).
Defined.

(** A project that was loaded can be saved and loaded again without change,
    whatever the first file held. *)
Theorem load_save_load (dio_path : string -> string)
    (fs fs' : gmap string pyval) (path path' : string) (p : ProjectModel) :
  load fs path = Ok p ->
  load (save dio_path path' p fs') (dio_path path') = Ok p.
Proof.
  intros Hload. apply load_save.
  destruct (load_inv fs path p Hload) as (d & l & _ & _ & Hfl).
  apply (frames_of_spec l _ Hfl).
Qed.

Lemma load_save_load_witness :
  load (save (fun path => path) "copy.dio" Examples.project ∅) "copy.dio"
  = Ok Examples.project.
Proof.
  apply (load_save_load (fun path => path)
           (save (fun path => path) "layout.dio" Examples.project ∅) ∅
           "layout.dio" "copy.dio").
  vm_compute. reflexivity.
Defined.

Lemma dict_get_filter (keep : string -> bool) (k : string) (d : list (string * pyval)) :
  keep k = true ->
  Py.dict_get k (List.filter (fun kv => keep (fst kv)) d) = Py.dict_get k d.
Proof.
  intros Hk. induction d as [|[k' v] d IH]; simpl; [reflexivity|].
  destruct (keep k') eqn:Ek'; simpl.
  - rewrite IH. reflexivity.
  - destruct (String.eqb_spec k k') as [->|_]; [congruence | exact IH].
Qed.

Lemma known_key_get (k : string) (d : list (string * pyval)) :
  existsb (String.eqb k) frame_keys = true ->
  Py.dict_get k
    (List.filter (fun kv => existsb (String.eqb (fst kv)) frame_keys) d)
  = Py.dict_get k d.
Proof.
  intros Hk.
  apply (dict_get_filter (fun k => existsb (String.eqb k) frame_keys) k d Hk).
Qed.

Lemma frame_of_fields (d : list (string * pyval)) :
  match Py.dict_get "id" d with
  | None => frame_of (PDict d) = Raise TypeError
  | Some id =>
      exists f,
        frame_of (PDict d) = Ok f
        /\ fm_id f = id
        /\ fm_title f = arg d "title" (PStr "Frame")
        /\ fm_x f = arg d "x" (PInt 100)
        /\ fm_y f = arg d "y" (PInt 100)
        /\ fm_width f = arg d "width" (PInt 200)
        /\ fm_height f = arg d "height" (PInt 200)
        /\ fm_bg_color f = arg d "bg_color" (PStr "#2c3e50")
        /\ fm_border_color f = arg d "border_color" (PStr "#ffffff")
        /\ fm_radii f
           = match arg d "radii" PNone with
             | PNone => default_radii
             | r => r
             end
        /\ fm_locked f = arg d "locked" (PBool false)
        /\ fm_visible f = arg d "visible" (PBool true)
        /\ fm_fill_enabled f = arg d "fill_enabled" (PBool true)
  end.
Proof.
  unfold frame_of, FrameModel_init, arg.
  rewrite !known_key_get by (vm_compute; reflexivity).
  destruct (Py.dict_get "id" d) as [id|]; [|reflexivity].
  eexists. split; [reflexivity|].
  unfold post_init. cbn [fm_radii].
  destruct (Py.dict_get "radii" d) as [[]|]; cbn; repeat split.
Qed.

(** Each field of a frame built by [load] is the value the file gives for the
    key of that name, or the default of the dataclass when the key is absent
    ([radii] also when it is [null]); nothing else in the entry matters, so
    unknown keys are ignored.  An entry without "id" is rejected. *)
Theorem frame_fields_from_file (d : list (string * pyval)) :
  match Py.dict_get "id" d with
  | None => frame_of (PDict d) = Raise TypeError
  | Some id =>
      exists f,
        frame_of (PDict d) = Ok f
        /\ fm_id f = id
        /\ fm_title f = arg d "title" (PStr "Frame")
        /\ fm_x f = arg d "x" (PInt 100)
        /\ fm_y f = arg d "y" (PInt 100)
        /\ fm_width f = arg d "width" (PInt 200)
        /\ fm_height f = arg d "height" (PInt 200)
        /\ fm_bg_color f = arg d "bg_color" (PStr "#2c3e50")
        /\ fm_border_color f = arg d "border_color" (PStr "#ffffff")
        /\ fm_radii f
           = match arg d "radii" PNone with
             | PNone => default_radii
             | r => r
             end
        /\ fm_locked f = arg d "locked" (PBool false)
        /\ fm_visible f = arg d "visible" (PBool true)
        /\ fm_fill_enabled f = arg d "fill_enabled" (PBool true)
  end.
Proof. apply frame_of_fields. Qed.

Lemma frame_of_ok_iff (v : pyval) :
  (exists f, frame_of v = Ok f)
  <-> exists d id, v = PDict d /\ Py.dict_get "id" d = Some id.
Proof.
  split.
  - intros [f Hf]. destruct v as [| | | | |d]; try (cbv in Hf; discriminate).
    pose proof (frame_of_fields d) as H.
    destruct (Py.dict_get "id" d) as [id|] eqn:Eid; [eauto | congruence].
  - intros (d & id & -> & Hid).
    pose proof (frame_of_fields d) as H. rewrite Hid in H.
    destruct H as (f & Hf & _). eauto.
Qed.

Lemma frames_of_ok_iff (l : list pyval) :
  (exists fl, frames_of l = Ok fl)
  <-> forall v, In v l -> exists d id, v = PDict d /\ Py.dict_get "id" d = Some id.
Proof.
  induction l as [|v l IH]; cbn [frames_of].
  - split; [intros _ v [] | eauto].
  - split.
    + intros [fl Hfl].
      destruct (frame_of v) as [f|] eqn:Ef; [|discriminate].
      destruct (frames_of l) as [fl'|]; [|discriminate].
      intros w [<-|Hw].
      * apply frame_of_ok_iff. eauto.
      * apply (proj1 IH); eauto.
    + intros Hall.
      destruct (proj2 (frame_of_ok_iff v) (Hall v (or_introl eq_refl))) as [f ->].
      destruct (proj2 IH (fun w Hw => Hall w (or_intror Hw))) as [fl ->]. eauto.
Qed.

(** [load] succeeds exactly when the file exists, its top-level object has a
    "version" entry and a "frames" list, and every element of that list is
    an object with an "id" entry. *)
Theorem load_succeeds_iff (fs : gmap string pyval) (path : string) :
  (exists p, load fs path = Ok p)
  <-> exists d l,
        fs !! path = Some (PDict d)
        /\ (exists v, Py.dict_get "version" d = Some v)
        /\ Py.dict_get "frames" d = Some (PList l)
        /\ forall e, In e l ->
             exists kv id, e = PDict kv /\ Py.dict_get "id" kv = Some id.
Proof.
  split.
  - intros [p Hp]. destruct (load_inv fs path p Hp) as (d & l & Hf & Hd & Hfl).
    exists d, l. split; [exact Hf|]. split; [|split; [exact Hd|]].
    + unfold load in Hp. rewrite Hf in Hp.
      destruct (ProjectValidator.validate (PDict d)) as [[]|] eqn:Ev; [|discriminate].
      apply validate_ok_iff in Ev. tauto.
    + apply frames_of_ok_iff. eauto.
  - intros (d & l & Hf & [v Hv] & Hd & Hall).
    apply frames_of_ok_iff in Hall as [fl Hfl].
    unfold load. rewrite Hf.
    rewrite (proj2 (validate_ok_iff d)) by eauto.
    cbn [mbind result_bind]. rewrite Hd, Hv, Hfl. cbn [mbind result_bind]. eauto.
Qed.

End PersistenceMore.

(** ** More on the spacing overlay *)

Section SpacingMore.
Import SpacingOverlay.

Lemma h_line_shape (r1 r2 : QRect) x1 y1 x2 y2 d :
  h_line r1 r2 = Some (x1, y1, x2, y2, d) ->
  1 <= d /\ y1 = y2 /\ x2 - x1 = d.
Proof.
  unfold h_line.
  destruct (Z.ltb_spec (Rect.right r1) (Rect.left r2)).
  - intros [= <- <- <- <- <-]. lia.
  - destruct (Z.gtb_spec (Rect.left r1) (Rect.right r2)); [|discriminate].
    intros [= <- <- <- <- <-]. lia.
Qed.

Lemma v_line_shape (r1 r2 : QRect) x1 y1 x2 y2 d :
  v_line r1 r2 = Some (x1, y1, x2, y2, d) ->
  1 <= d /\ x1 = x2 /\ y2 - y1 = d.
Proof.
  unfold v_line.
  destruct (Z.ltb_spec (Rect.bottom r1) (Rect.top r2)).
  - intros [= <- <- <- <- <-]. lia.
  - destruct (Z.gtb_spec (Rect.top r1) (Rect.bottom r2)); [|discriminate].
    intros [= <- <- <- <- <-]. lia.
Qed.

(** [paintEvent] draws at most two measurements.  Each is labelled with a
    value of at least 1 that equals the length of its line, and the line is
    horizontal or vertical as its flag says. *)
Theorem measurement_labels_line_length (rect1 rect2 : option QRect) :
  (length (paintEvent rect1 rect2) <= 2)%nat
  /\ forall m, In m (paintEvent rect1 rect2) ->
       1 <= m_value m
       /\ match m_line m with
          | (x1, y1, x2, y2) =>
              if m_is_horizontal m
              then y1 = y2 /\ x2 - x1 = m_value m
              else x1 = x2 /\ y2 - y1 = m_value m
          end.
Proof.
  unfold paintEvent.
  destruct (negb (truthy rect1) || negb (truthy rect2)); [simpl; split; [lia | tauto]|].
  destruct rect1 as [r1|], rect2 as [r2|]; try (simpl; split; [lia | tauto]).
  pose proof (h_line_shape r1 r2) as Hh. pose proof (v_line_shape r1 r2) as Hv.
  destruct (h_line r1 r2) as [[[[[hx1 hy1] hx2] hy2] hd]|];
    destruct (v_line r1 r2) as [[[[[vx1 vy1] vx2] vy2] vd]|]; simpl;
    (split; [lia|]); intros m Hm;
    repeat (destruct Hm as [<-|Hm]); try destruct Hm; simpl;
    try (specialize (Hh _ _ _ _ _ eq_refl)); try (specialize (Hv _ _ _ _ _ eq_refl));
    tauto.
Qed.

(** For rectangles of positive size, the values shown do not depend on which
    rectangle is the source and which the target; only the position of the
    lines does. *)
Theorem measurement_values_symmetric (r1 r2 : QRect) :
  0 < rwidth r1 -> 0 < rheight r1 -> 0 < rwidth r2 -> 0 < rheight r2 ->
  map m_value (paintEvent (Some r1) (Some r2))
  = map m_value (paintEvent (Some r2) (Some r1)).
Proof.
  intros W1 H1 W2 H2. unfold paintEvent.
  rewrite (orb_comm (negb (truthy (Some r2)))).
  destruct (negb (truthy (Some r1)) || negb (truthy (Some r2))); [reflexivity|].
  rewrite !map_app. unfold Rect.right, Rect.left, Rect.bottom, Rect.top in *.
  f_equal.
  - unfold h_line, Rect.right, Rect.left.
    destruct (Z.ltb_spec (rx r1 + rwidth r1 - 1) (rx r2));
      destruct (Z.gtb_spec (rx r1) (rx r2 + rwidth r2 - 1));
      destruct (Z.ltb_spec (rx r2 + rwidth r2 - 1) (rx r1));
      destruct (Z.gtb_spec (rx r2) (rx r1 + rwidth r1 - 1));
      simpl; try reflexivity; exfalso; lia.
  - unfold v_line, Rect.bottom, Rect.top.
    destruct (Z.ltb_spec (ry r1 + rheight r1 - 1) (ry r2));
      destruct (Z.gtb_spec (ry r1) (ry r2 + rheight r2 - 1));
      destruct (Z.ltb_spec (ry r2 + rheight r2 - 1) (ry r1));
      destruct (Z.gtb_spec (ry r2) (ry r1 + rheight r1 - 1));
      simpl; try reflexivity; exfalso; lia.
Qed.

Lemma measurement_values_symmetric_witness :
  map m_value (paintEvent (Some (mkQRect 0 0 100 100)) (Some (mkQRect 200 300 100 100)))
  = map m_value (paintEvent (Some (mkQRect 200 300 100 100)) (Some (mkQRect 0 0 100 100))).
Proof.
  apply measurement_values_symmetric; reflexivity.
Defined.

(** Two rectangles that have a pixel in common get no measurement. *)
Theorem intersecting_rects_not_measured (r1 r2 : QRect) :
  Rect.left r1 <= Rect.right r2 -> Rect.left r2 <= Rect.right r1 ->
  Rect.top r1 <= Rect.bottom r2 -> Rect.top r2 <= Rect.bottom r1 ->
  paintEvent (Some r1) (Some r2) = [].
Proof.
  intros H1 H2 H3 H4. unfold paintEvent.
  destruct (negb (truthy (Some r1)) || negb (truthy (Some r2))); [reflexivity|].
  unfold h_line, v_line.
  destruct (Z.ltb_spec (Rect.right r1) (Rect.left r2)); [lia|].
  destruct (Z.gtb_spec (Rect.left r1) (Rect.right r2)); [lia|].
  destruct (Z.ltb_spec (Rect.bottom r1) (Rect.top r2)); [lia|].
  destruct (Z.gtb_spec (Rect.top r1) (Rect.bottom r2)); [lia|].
  reflexivity.
Qed.

Lemma intersecting_rects_not_measured_witness :
  paintEvent (Some (mkQRect 0 0 100 100)) (Some (mkQRect 99 99 50 50)) = [].
Proof.
  apply intersecting_rects_not_measured; vm_compute; discriminate.
Defined.

(** When the source ends at or before the column where the target begins,
    the horizontal label is the number of free columns between them plus
    one; rectangles that touch are shown 1 apart. *)
Theorem horizontal_label_is_gap_plus_one (r1 r2 : QRect) :
  truthy (Some r1) = true -> truthy (Some r2) = true ->
  rx r1 + rwidth r1 <= rx r2 ->
  exists y,
    In (mkMeasurement (rx r1 + rwidth r1 - 1, y, rx r2, y)
          (rx r2 - (rx r1 + rwidth r1) + 1) true)
       (paintEvent (Some r1) (Some r2)).
Proof.
  intros T1 T2 Hgap. unfold paintEvent. rewrite T1, T2. cbn [negb orb].
  exists (py (Rect.center r2)). apply in_or_app. left.
  unfold h_line, Rect.right, Rect.left.
  destruct (Z.ltb_spec (rx r1 + rwidth r1 - 1) (rx r2)); [|lia].
  simpl. left. f_equal. lia.
Qed.

Lemma horizontal_label_is_gap_plus_one_witness :
  exists y,
    In (mkMeasurement (99, y, 100, y) 1 true)
       (paintEvent (Some (mkQRect 0 0 100 100)) (Some (mkQRect 100 0 100 100))).
Proof.
  apply (horizontal_label_is_gap_plus_one (mkQRect 0 0 100 100) (mkQRect 100 0 100 100));
    [reflexivity | reflexivity | vm_compute; discriminate].
Defined.

End SpacingMore.

(** ** More on the smart guides *)

Section GuideMore.
Import SmartGuides GuideSpec.

Lemma axis_at_most_three pts ext m o :
  length (pts m) = 3%nat ->
  (length (axis_matches pts ext m o) <= 3)%nat.
Proof.
  intros H3. rewrite <- (length_map fst), <- H3.
  apply submseteq_length, NoDup_submseteq; [apply axis_NoDup|].
  intros k. rewrite !list_elem_of_In. intros Hk. apply axis_keys in Hk. tauto.
Qed.

(** [update_guides] never yields more than six guides: at most one for each
    of the three X-coordinates and the three Y-coordinates of the moving
    rectangle, however many rectangles are aligned with it. *)
Theorem at_most_six_guides (moving : QRect) (others : list QRect) :
  (length (vertical_guides moving others) <= 3)%nat
  /\ (length (horizontal_guides moving others) <= 3)%nat
  /\ (length (update_guides moving others) <= 6)%nat.
Proof.
  assert (length (vertical_guides moving others) <= 3)%nat as HV.
  { unfold vertical_guides. rewrite collect_axes, length_map.
    apply axis_at_most_three. reflexivity. }
  assert (length (horizontal_guides moving others) <= 3)%nat as HH.
  { unfold horizontal_guides. rewrite collect_axes, length_map.
    apply axis_at_most_three. reflexivity. }
  rewrite update_guides_halves, length_app. lia.
Qed.

Lemma bounds_cover pts ext m o k :
  lower pts ext m o k <= fst (ext m)
  /\ snd (ext m) <= upper pts ext m o k
  /\ forall r, In r (partners pts m o k) ->
       lower pts ext m o k <= fst (ext r) /\ snd (ext r) <= upper pts ext m o k.
Proof.
  unfold lower, upper, py_min, py_max.
  destruct (fold_min_spec
              (map (fun r => fst (ext r)) (partners pts m o k)) (fst (ext m)))
    as [_ Hmin].
  destruct (fold_max_spec
              (map (fun r => snd (ext r)) (partners pts m o k)) (snd (ext m)))
    as [_ Hmax].
  split; [apply Hmin; left; reflexivity|].
  split; [apply Hmax; left; reflexivity|].
  intros r Hr. split.
  - apply Hmin. right. apply in_map_iff. eauto.
  - apply Hmax. right. apply in_map_iff. eauto.
Qed.

(** Every guide is a vertical line at an X-coordinate of the moving
    rectangle or a horizontal line at one of its Y-coordinates, and it
    reaches over the whole extent of the moving rectangle and of at least one
    other rectangle of the list, different from the moving one. *)
Theorem guide_covers_aligned_rects (moving : QRect) (others : list QRect) (g : guide) :
  In g (update_guides moving others) ->
  (gx1 g = gx2 g /\ In (gx1 g) (points_x moving)
   /\ gy1 g <= hp (ry moving) /\ hp (ry moving + rheight moving) <= gy2 g
   /\ exists r, In r others /\ r <> moving
        /\ gy1 g <= hp (ry r) /\ hp (ry r + rheight r) <= gy2 g)
  \/ (gy1 g = gy2 g /\ In (gy1 g) (points_y moving)
      /\ gx1 g <= hp (rx moving) /\ hp (rx moving + rwidth moving) <= gx2 g
      /\ exists r, In r others /\ r <> moving
           /\ gx1 g <= hp (rx r) /\ hp (rx r + rwidth r) <= gx2 g).
Proof.
  rewrite update_guides_halves. intros Hg. apply in_app_or in Hg as [Hg|Hg].
  - left. apply in_vertical_guides in Hg as (k & Hk & Hne & ->).
    destruct (bounds_cover points_x span_y moving others k) as (Hlo & Hhi & Hall).
    apply partners_nonempty in Hne as (r & Hr & Hp).
    destruct (Hall r) as [Hrlo Hrhi]; [apply filter_In; auto|].
    unfold vertical_guide. cbn [gx1 gx2 gy1 gy2].
    repeat split; auto. exists r. repeat split; auto.
    unfold partner in Hp. apply andb_true_iff in Hp as [Hp _].
    intros ->. rewrite bool_decide_eq_true_2 in Hp by reflexivity. discriminate.
  - right. apply in_horizontal_guides in Hg as (k & Hk & Hne & ->).
    destruct (bounds_cover points_y span_x moving others k) as (Hlo & Hhi & Hall).
    apply partners_nonempty in Hne as (r & Hr & Hp).
    destruct (Hall r) as [Hrlo Hrhi]; [apply filter_In; auto|].
    unfold horizontal_guide. cbn [gx1 gx2 gy1 gy2].
    repeat split; auto. exists r. repeat split; auto.
    unfold partner in Hp. apply andb_true_iff in Hp as [Hp _].
    intros ->. rewrite bool_decide_eq_true_2 in Hp by reflexivity. discriminate.
Qed.

Lemma guide_covers_aligned_rects_witness :
  exists r, In r [Examples.guide_c] /\ r <> Examples.guide_moving.
Proof.
  destruct (guide_covers_aligned_rects Examples.guide_moving [Examples.guide_c]
              (mkGuide 200 0 200 300)) as [(_ & _ & _ & _ & r & Hr & Hne & _)|H].
  - vm_compute. left. reflexivity.
  - exists r. split; assumption.
  - exfalso. destruct H as (H & _). vm_compute in H. discriminate.
Defined.

Lemma partners_same_elements pts m o o' k :
  (forall r, In r o <-> In r o') ->
  forall r, In r (partners pts m o k) <-> In r (partners pts m o' k).
Proof.
  intros Hoo r. unfold partners. rewrite !filter_In, Hoo. reflexivity.
Qed.

Lemma bounds_same_elements pts ext m o o' k :
  (forall r, In r o <-> In r o') ->
  lower pts ext m o k = lower pts ext m o' k
  /\ upper pts ext m o k = upper pts ext m o' k.
Proof.
  intros Hoo. unfold lower, upper.
  pose proof (partners_same_elements pts m o o' k Hoo) as Hp.
  split; [apply py_min_ext | apply py_max_ext]; try discriminate;
    intros x; simpl; rewrite !in_map_iff;
    (split; (intros [H|(r & Hr & Hin)]; [left; exact H|]);
     right; exists r; split; auto; apply Hp; exact Hin).
Qed.

(** The guides depend only on which rectangles are in the list: a list with
    the same rectangles in another order, or with repetitions, gives the same
    set of guides. *)
Theorem guides_ignore_order (moving : QRect) (others others' : list QRect) :
  (forall r, In r others <-> In r others') ->
  forall g, In g (update_guides moving others) <-> In g (update_guides moving others').
Proof.
  intros Hoo g. rewrite !update_guides_halves, !in_app_iff.
  rewrite !in_vertical_guides, !in_horizontal_guides.
  assert (forall pts k, partners pts moving others k <> []
                        <-> partners pts moving others' k <> []) as Hne.
  { intros pts k. rewrite !partners_nonempty.
    split; intros (r & Hr & Hp); exists r; (split; [apply Hoo; exact Hr | exact Hp]). }
  unfold vertical_guide, horizontal_guide.
  split; (intros [(k & Hk & Hp & ->)|(k & Hk & Hp & ->)];
          [left | right]; exists k; (split; [exact Hk|]);
          (split; [apply Hne; exact Hp|])).
  - destruct (bounds_same_elements points_x span_y moving others others' k Hoo)
      as [-> ->]. reflexivity.
  - destruct (bounds_same_elements points_y span_x moving others others' k Hoo)
      as [-> ->]. reflexivity.
  - destruct (bounds_same_elements points_x span_y moving others others' k Hoo)
      as [-> ->]. reflexivity.
  - destruct (bounds_same_elements points_y span_x moving others others' k Hoo)
      as [-> ->]. reflexivity.
Qed.

Lemma guides_ignore_order_witness :
  In (mkGuide 0 0 0 940)
     (update_guides Examples.guide_moving
        [Examples.guide_b; Examples.guide_a; Examples.guide_b]).
Proof.
  apply (guides_ignore_order Examples.guide_moving
           [Examples.guide_a; Examples.guide_b]
           [Examples.guide_b; Examples.guide_a; Examples.guide_b]).
  - intros r. simpl. tauto.
  - vm_compute. left. reflexivity.
Defined.

Lemma list_empty_iff {A} (l : list A) : l = [] <-> forall a, ~ In a l.
Proof.
  split; [intros -> a [] | ].
  destruct l as [|a l]; [reflexivity|]. intros H. destruct (H a). left. reflexivity.
Qed.

(** No guide at all is produced exactly when no coordinate of the moving
    rectangle lies within the tolerance (two half pixels) of a coordinate on
    the same axis of a rectangle of the list that differs from it. *)
Theorem no_guides_iff (moving : QRect) (others : list QRect) :
  update_guides moving others = []
  <-> forall r, In r others -> r <> moving ->
        (forall k rv, In k (points_x moving) -> In rv (points_x r) ->
           tol < Z.abs (k - rv))
        /\ (forall k rv, In k (points_y moving) -> In rv (points_y r) ->
              tol < Z.abs (k - rv)).
Proof.
  assert (forall pts r k rv, In r others -> r <> moving ->
            In rv (pts r) -> Z.abs (k - rv) <= tol ->
            partners pts moving others k <> []) as Hpart.
  { intros pts r k rv Hr Hne Hrv Hal. apply partners_nonempty. exists r.
    split; [exact Hr|]. unfold partner.
    rewrite bool_decide_eq_false_2 by exact Hne. cbn [negb andb].
    apply existsb_exists. exists rv. split; [exact Hrv|].
    unfold aligned. apply Z.leb_le. exact Hal. }
  assert (forall pts r k, partner pts moving k r = true ->
            r <> moving /\ exists rv, In rv (pts r) /\ Z.abs (k - rv) <= tol) as Hinv.
  { intros pts r k Hp. unfold partner in Hp. apply andb_true_iff in Hp as [Hne Hex].
    split.
    - intros ->. rewrite bool_decide_eq_true_2 in Hne by reflexivity. discriminate.
    - apply existsb_exists in Hex as (rv & Hrv & Hal). exists rv.
      split; [exact Hrv|]. unfold aligned in Hal. apply Z.leb_le in Hal. exact Hal. }
  rewrite list_empty_iff. split.
  - intros Hnone r Hr Hne. split; intros k rv Hk Hrv;
      destruct (Z.lt_ge_cases tol (Z.abs (k - rv))) as [|Hle]; auto; exfalso.
    + apply (Hnone (vertical_guide moving others k)).
      rewrite update_guides_halves. apply in_or_app. left.
      apply in_vertical_guides. exists k. repeat split; auto.
      apply (Hpart points_x r k rv); auto.
    + apply (Hnone (horizontal_guide moving others k)).
      rewrite update_guides_halves. apply in_or_app. right.
      apply in_horizontal_guides. exists k. repeat split; auto.
      apply (Hpart points_y r k rv); auto.
  - intros Hfar g. rewrite update_guides_halves, in_app_iff.
    rewrite in_vertical_guides, in_horizontal_guides.
    intros [(k & Hk & Hne & _)|(k & Hk & Hne & _)];
      apply partners_nonempty in Hne as (r & Hr & Hp);
      apply Hinv in Hp as (Hrm & rv & Hrv & Hal);
      destruct (Hfar r Hr Hrm) as [Hx Hy].
    + specialize (Hx k rv Hk Hrv). lia.
    + specialize (Hy k rv Hk Hrv). lia.
Qed.

End GuideMore.

(** ** Mouse handling *)

Section FrameEventFacts.
Import FrameEvents.

(** A locked frame has no resize mode.  An unlocked frame always has one,
    and it is MOVE exactly when the pointer is at least the margin
    [min(20, width // 3, height // 3)] away from the left and top edge and
    not beyond [width - margin], [height - margin]. *)
Theorem resize_mode_regions (p : QPoint) (f : MeasureFrame) :
  (is_locked f = true -> _get_resize_mode p f = NONE)
  /\ (is_locked f = false ->
      let m := Z.min Config.MARGIN_RESIZE
                 (Z.min (Frame.width f / 3) (Frame.height f / 3)) in
      _get_resize_mode p f <> NONE
      /\ (_get_resize_mode p f = MOVE
          <-> m <= px p <= Frame.width f - m /\ m <= py p <= Frame.height f - m)).
Proof.
  unfold _get_resize_mode. split; intros ->; [reflexivity|]. cbv zeta.
  set (m := Z.min Config.MARGIN_RESIZE
              (Z.min (Frame.width f / 3) (Frame.height f / 3))).
  destruct (Z.ltb_spec (px p) m); destruct (Z.gtb_spec (px p) (Frame.width f - m));
    destruct (Z.ltb_spec (py p) m); destruct (Z.gtb_spec (py p) (Frame.height f - m));
    cbn [andb]; (split; [discriminate|]); split;
    try discriminate; try (intros _; lia); try (intros; exfalso; lia);
    try reflexivity.
Qed.

Lemma resize_mode_regions_witness :
  _get_resize_mode (mkQPoint 200 125) Examples.frame1 = MOVE.
Proof.
  apply (proj2 (resize_mode_regions (mkQPoint 200 125) Examples.frame1)); [reflexivity|].
  vm_compute. repeat split; discriminate.
Defined.

Lemma locked_move_event (desk : Desktop) (f : MeasureFrame) (p : QPoint) :
  drag_mode (drag f) = NONE -> mouseMoveEvent desk p f = f.
Proof.
  intros H. unfold mouseMoveEvent.
  destruct (negb (is_dragging (drag f))); [reflexivity|].
  rewrite bool_decide_eq_true_2 by exact H. reflexivity.
Qed.

(** A locked frame ignores a drag: after the press, any pointer movement and
    the release it has the geometry it had and is not dragging. *)
Theorem locked_frame_ignores_drag (desk : Desktop) (pos global_pos : QPoint)
    (moves : list QPoint) (f : MeasureFrame) :
  is_locked f = true ->
  geometry (drag_gesture desk pos global_pos moves f) = geometry f
  /\ drag_mode (drag (drag_gesture desk pos global_pos moves f)) = NONE
  /\ is_dragging (drag (drag_gesture desk pos global_pos moves f)) = false.
Proof.
  intros Hl. unfold drag_gesture.
  assert (fold_left (fun f p => mouseMoveEvent desk p f) moves
            (mousePressEvent true pos global_pos f)
          = mousePressEvent true pos global_pos f) as ->.
  { assert (drag_mode (drag (mousePressEvent true pos global_pos f)) = NONE) as H.
    { unfold mousePressEvent, _get_resize_mode. rewrite Hl. reflexivity. }
    revert H. generalize (mousePressEvent true pos global_pos f) as g.
    induction moves as [|p moves IH]; intros g Hg; simpl; [reflexivity|].
    rewrite locked_move_event by exact Hg. apply IH, Hg. }
  repeat split.
Qed.

Lemma locked_frame_ignores_drag_witness :
  geometry (drag_gesture Examples.hd_desk (mkQPoint 1 1) (mkQPoint 101 101)
              [mkQPoint 300 300; mkQPoint 0 0]
              (Frame.set_locked true Examples.frame1))
  = geometry Examples.frame1.
Proof.
  apply (locked_frame_ignores_drag Examples.hd_desk (mkQPoint 1 1) (mkQPoint 101 101)
           [mkQPoint 300 300; mkQPoint 0 0] (Frame.set_locked true Examples.frame1)).
  reflexivity.
Defined.

Lemma perform_drag_twice (desk : Desktop) (p1 p2 : QPoint) (f : MeasureFrame) :
  Frame._perform_drag desk p2 (Frame._perform_drag desk p1 f)
  = Frame._perform_drag desk p2 f.
Proof.
  destruct f as [id g bg bd n t lk ra cr vw vs [mode sg sm dg]].
  destruct mode; reflexivity.
Qed.

Lemma move_event_twice (desk : Desktop) (p1 p2 : QPoint) (f : MeasureFrame) :
  mouseMoveEvent desk p2 (mouseMoveEvent desk p1 f) = mouseMoveEvent desk p2 f.
Proof.
  destruct f as [id g bg bd n t lk ra cr vw vs [mode sg sm dg]].
  destruct dg; destruct mode; reflexivity.
Qed.

(** While the button is held, the frame depends only on where the drag began
    and on the latest pointer position, not on the path the pointer took. *)
Theorem drag_depends_on_last_position (desk : Desktop) (pos global_pos : QPoint)
    (moves : list QPoint) (p : QPoint) (f : MeasureFrame) :
  drag_gesture desk pos global_pos (moves ++ [p]) f
  = drag_gesture desk pos global_pos [p] f.
Proof.
  unfold drag_gesture. f_equal.
  generalize (mousePressEvent true pos global_pos f) as g. intros g.
  rewrite fold_left_app. cbn [fold_left]. revert g.
  induction moves as [|q moves IH]; intros g; cbn [fold_left]; [reflexivity|].
  rewrite IH. apply move_event_twice.
Qed.

(** Dragging the right edge, the bottom edge or the bottom-right corner never
    moves the origin of the frame: it stays where the drag began. *)
Theorem right_bottom_drag_keeps_origin (desk : Desktop) (p : QPoint) (f : MeasureFrame) :
  In (drag_mode (drag f)) [RESIZE_RIGHT; RESIZE_BOTTOM; RESIZE_BOTTOM_RIGHT] ->
  Frame.x (Frame._perform_drag desk p f) = rx (start_geom (drag f))
  /\ Frame.y (Frame._perform_drag desk p f) = ry (start_geom (drag f)).
Proof.
  destruct f as [id g bg bd n t lk ra cr vw vs [mode sg sm dg]]. cbn [drag drag_mode].
  intros [<-|[<-|[<-|[]]]]; split; reflexivity.
Qed.

Lemma right_bottom_drag_keeps_origin_witness :
  Frame.x (Frame._perform_drag Examples.hd_desk (mkQPoint 900 700)
             (Examples.dragging RESIZE_BOTTOM_RIGHT (mkQPoint 500 350) Examples.frame1))
  = 100.
Proof.
  apply (proj1 (right_bottom_drag_keeps_origin Examples.hd_desk (mkQPoint 900 700)
                  (Examples.dragging RESIZE_BOTTOM_RIGHT (mkQPoint 500 350)
                     Examples.frame1)
                  (or_intror (or_intror (or_introl eq_refl))))).
Defined.



(** A wheel tick never puts the left or top edge of the frame outside the
    screen's, and the frame ends at or before the screen's [right()] and
    [bottom()] unless that would make it smaller than MIN_SIZE, in which case
    it gets MIN_SIZE. *)
Theorem wheel_respects_screen_edges (desk : Desktop) (event : WheelEvent)
    (f : MeasureFrame) :
  let s_rect := screen_rect_at desk (globalPosition event) in
  let f' := Frame.wheelEvent desk event f in
  Rect.left s_rect <= Frame.x f'
  /\ Rect.top s_rect <= Frame.y f'
  /\ (Frame.x f' + Frame.width f' <= Rect.right s_rect
      \/ Frame.width f' = Config.MIN_SIZE)
  /\ (Frame.y f' + Frame.height f' <= Rect.bottom s_rect
      \/ Frame.height f' = Config.MIN_SIZE).
Proof.
  cbv zeta. unfold Frame.wheelEvent.
  set (s := screen_rect_at desk (globalPosition event)).
  set (step := if angleDelta_y event >? 0 then 10 else -10).
  set (nw := Z.max Config.MIN_SIZE (rwidth (geometry f) + step)).
  set (nh := Z.max Config.MIN_SIZE (rheight (geometry f) + step)).
  set (cx := px (Rect.center (geometry f)) - nw / 2).
  set (cy := py (Rect.center (geometry f)) - nh / 2).
  unfold Frame.setGeometry, Frame.x, Frame.y, Frame.width, Frame.height,
    Frame.constrain, Config.MIN_SIZE, Config.MAX_SIZE in *.
  cbn [geometry Frame.with_geometry rx ry rwidth rheight].
  destruct (Z.ltb_spec cx (Rect.left s)); destruct (Z.ltb_spec cy (Rect.top s));
    repeat match goal with
           | |- context [?a >? ?b] => destruct (Z.gtb_spec a b)
           end; lia.
Qed.

Lemma radii_positive (zs : list Z) :
  Py.any_gt_zero (map PInt zs) = Ok (existsb (fun z => 0 <? z) zs).
Proof.
  induction zs as [|z zs IH]; simpl; [reflexivity|].
  destruct (0 <? z); [reflexivity | exact IH].
Qed.

(** For radii that are integers, [on_radius_value_changed] succeeds, stores
    the radii, and marks the radius as active exactly when one of them is
    positive; nothing else of the frame changes. *)
Theorem radius_active_iff_some_positive (d : list (string * Z)) (f : MeasureFrame) :
  exists f',
    Frame.on_radius_value_changed (PDict (map (fun kv => (fst kv, PInt (snd kv))) d)) f
    = Ok f'
    /\ corner_radii f' = map (fun kv => (fst kv, PInt (snd kv))) d
    /\ (radius_active f' = true <-> exists k z, In (k, z) d /\ 0 < z)
    /\ geometry f' = geometry f /\ title f' = title f
    /\ is_locked f' = is_locked f /\ uid f' = uid f.
Proof.
  unfold Frame.on_radius_value_changed.
  rewrite map_map. cbn [snd]. rewrite <- (map_map snd PInt), radii_positive.
  cbn [mbind result_bind]. eexists. split; [reflexivity|].
  cbn [corner_radii radius_active geometry title is_locked uid].
  repeat split; auto.
  - intros H. apply existsb_exists in H as (z & Hz & Hpos).
    apply in_map_iff in Hz as ([k z'] & <- & Hin).
    exists k, z'. split; [exact Hin | apply Z.ltb_lt, Hpos].
  - intros (k & z & Hin & Hpos). apply existsb_exists. exists z.
    split; [|apply Z.ltb_lt, Hpos]. apply in_map_iff. exists (k, z). auto.
Qed.

End FrameEventFacts.

(** ** More on the frame manager *)

Section ManagerMore.
Import Manager ManagerOps.




(** [new_design] always ends with exactly one frame: "Frame 1", 400 x 250 at
    the origin, in the first palette colour, selected; no project path; and
    the project already counts as dirty, since [create_frame] marks it.  The
    file system changes only by the autosave, which happens exactly when the
    manager had a non-empty project path, was dirty and had frames. *)
Theorem new_design_resets (dio_path : string -> string) (uuids : nat -> string)
    (now : string) (st : FrameManager) (fs : gmap string pyval) :
  exists f,
    frames (fst (new_design dio_path uuids now (st, fs))) = [f]
    /\ title f = "Frame 1" /\ frame_number f = 1
    /\ geometry f = mkQRect 0 0 400 250
    /\ (bg_color f, border_color f) = Palette.pick 0
    /\ selected_frame (fst (new_design dio_path uuids now (st, fs))) = Some (uid f)
    /\ project_path (fst (new_design dio_path uuids now (st, fs))) = None
    /\ dirty (fst (new_design dio_path uuids now (st, fs))) = true
    /\ color_idx (fst (new_design dio_path uuids now (st, fs))) = 1
    /\ snd (new_design dio_path uuids now (st, fs))
       = match project_path st, frames st with
         | Some p, _ :: _ =>
             if negb (String.eqb p "") && dirty st
             then ProjectSerializer.save dio_path p
                    (_export_current_project uuids now st) fs
             else fs
         | _, _ => fs
         end.
Proof.
  unfold new_design.
  set (autosave := match project_path st, frames st with
                   | Some p, _ :: _ => negb (String.eqb p "") && dirty st
                   | _, _ => false
                   end).
  assert (snd (if autosave then save_design dio_path uuids now "" (st, fs) else (st, fs))
          = match project_path st, frames st with
            | Some p, _ :: _ =>
                if negb (String.eqb p "") && dirty st
                then ProjectSerializer.save dio_path p
                       (_export_current_project uuids now st) fs
                else fs
            | _, _ => fs
            end) as Hfs.
  { subst autosave. unfold save_design.
    destruct (project_path st) as [p|]; [|reflexivity].
    destruct (frames st) as [|f0 l]; [reflexivity|].
    destruct (String.eqb_spec p ""); cbn [negb andb]; [reflexivity|].
    destruct (dirty st); [|reflexivity].
    destruct (String.eqb_spec p ""); [contradiction | reflexivity]. }
  destruct (if autosave then save_design dio_path uuids now "" (st, fs) else (st, fs))
    as [st1 fs1].
  simpl in Hfs. subst fs1.
  eexists. split; [reflexivity|]. repeat split.
Qed.



Lemma update_frame_lookup id g (l : list MeasureFrame) (j : nat) (f : MeasureFrame) :
  l !! j = Some f ->
  update_frame id g l !! j = Some (if Nat.eqb (uid f) id then g f else f).
Proof.
  revert j. induction l as [|a l IH]; intros j; [discriminate|].
  destruct j as [|j]; simpl; [intros [= ->]; reflexivity | apply IH].
Qed.



Lemma clamp_room (lo hi v : Z) : lo <= v <= hi -> Z.max lo (Z.min hi v) = v.
Proof. lia. Qed.

(** A nudge of an unlocked frame that has room on its screen moves exactly
    that frame by one pixel, or ten with Shift, in the direction asked, keeps
    its size, and leaves every other frame as it is. *)
Theorem nudge_moves_by_step (desk : Desktop) (shift : bool) (id : nat)
    (st : FrameManager) (f : MeasureFrame) (direction : string) (dx dy : Z) :
  find_frame id (frames st) = Some f ->
  is_locked f = false ->
  let step := if shift then 10 else 1 in
  let s := screen_rect_at desk (Rect.center (geometry f)) in
  In (direction, (dx, dy))
     [("up", (0, - step)); ("down", (0, step));
      ("left", (- step, 0)); ("right", (step, 0))] ->
  Rect.left s <= Frame.x f + dx <= Rect.right s - Frame.width f ->
  Rect.top s <= Frame.y f + dy <= Rect.bottom s - Frame.height f ->
  let st' := _handle_move_frame desk shift id direction st in
  find_frame id (frames st')
  = Some (Frame.with_geometry (Rect.translated dx dy (geometry f)) f)
  /\ length (frames st') = length (frames st)
  /\ forall (j : nat) (g : MeasureFrame),
       frames st !! j = Some g -> uid g <> id -> frames st' !! j = Some g.
Proof.
  intros Hf Hlock step s Hdir Hx Hy st'. subst st'.
  unfold _handle_move_frame. rewrite Hf, Hlock. fold step. fold s.
  cbn [frames _mark_dirty with_frames].
  split; [|split].
  - erewrite find_update_frame; [|intros; reflexivity | exact Hf].
    f_equal. unfold Frame.move, Rect.translated. f_equal.
    unfold Frame.x, Frame.y, Frame.width, Frame.height, Rect.topLeft in *.
    destruct Hdir as [[= <- <- <-]|[[= <- <- <-]|[[= <- <- <-]|[[= <- <- <-]|[]]]]];
      cbn [String.eqb Ascii.eqb Bool.eqb andb px py];
      rewrite !clamp_room by lia; f_equal; lia.
  - unfold update_frame. apply length_map.
  - intros j g Hj Hne. rewrite (update_frame_lookup id _ _ j g Hj).
    destruct (Nat.eqb_spec (uid g) id); [contradiction | reflexivity].
Qed.

Lemma nudge_moves_by_step_witness :
  find_frame 0
    (frames (_handle_move_frame Examples.hd_desk true 0 "right" Examples.manager1))
  = Some (Frame.with_geometry (mkQRect 110 100 400 250) Examples.frame1).
Proof.
  apply (nudge_moves_by_step Examples.hd_desk true 0 Examples.manager1
           Examples.frame1 "right" 10 0);
    [reflexivity | reflexivity | right; right; right; left; reflexivity
    | vm_compute; split; discriminate | vm_compute; split; discriminate].
Defined.

Lemma on_radius_inv (r : pyval) (f f' : MeasureFrame) :
  Frame.on_radius_value_changed r f = Ok f' ->
  uid f' = uid f /\ frame_number f' = frame_number f
  /\ geometry f' = geometry f /\ title f' = title f
  /\ is_locked f' = is_locked f /\ visible f' = visible f
  /\ r = PDict (corner_radii f').
Proof.
  unfold Frame.on_radius_value_changed. destruct r as [| | | | |d]; try discriminate.
  destruct (Py.any_gt_zero (map snd d)); [|discriminate].
  cbn [mbind result_bind]. intros [= <-]. repeat split.
Qed.

Lemma build_overlay_inv id n settings fd o :
  build_overlay id n settings fd = Ok o -> uid o = id /\ frame_number o = n.
Proof.
  unfold build_overlay.
  destruct (Py.as_int (fm_x fd)); [|discriminate].
  destruct (Py.as_int (fm_y fd)); [|discriminate].
  destruct (Py.as_int (fm_width fd)); [|discriminate].
  destruct (Py.as_int (fm_height fd)); [|discriminate].
  cbn [mbind result_bind].
  destruct (fm_title fd); try discriminate. cbn [mbind result_bind].
  destruct (fm_visible fd); try discriminate; cbn [mbind result_bind];
    (destruct (Frame.on_radius_value_changed _ _) as [o'|] eqn:E; [|discriminate];
     cbn [mbind result_bind]; intros [= <-];
     apply on_radius_inv in E as (Hu & Hn & _); cbn in *; auto).
Qed.

Lemma numbered_app (l : list MeasureFrame) (nf : MeasureFrame) :
  numbered l -> frame_number nf = Z.of_nat (length l) + 1 -> numbered (l ++ [nf]).
Proof.
  intros Hl Hn i f Hi.
  destruct (lookup_app_Some l [nf] i f) as [H _]. destruct (H Hi) as [Hi'|[Hlen Hi']].
  - apply Hl, Hi'.
  - destruct (i - length l)%nat as [|k] eqn:E; [|destruct k; discriminate].
    simpl in Hi'. injection Hi' as <-. rewrite Hn. f_equal. lia.
Qed.

Lemma renumber_from_inv (l : list MeasureFrame) (start : Z) (i : nat) (f' : MeasureFrame) :
  renumber_from start l !! i = Some f' ->
  exists f, l !! i = Some f /\ f' = Frame.set_frame_number (start + Z.of_nat i) f.
Proof.
  revert start i. induction l as [|a l IH]; intros start i; [discriminate|].
  destruct i as [|i]; simpl.
  - intros [= <-]. exists a. rewrite Z.add_0_r. auto.
  - intros Hi. destruct (IH _ _ Hi) as (f & Hf & ->). exists f. split; [exact Hf|].
    f_equal. lia.
Qed.

Lemma numbered_renumber (l : list MeasureFrame) : numbered (renumber_from 1 l).
Proof.
  intros i f' Hi. destruct (renumber_from_inv l 1 i f' Hi) as (f & _ & ->).
  simpl. lia.
Qed.

Lemma numbered_update id g (l : list MeasureFrame) :
  (forall f, frame_number (g f) = frame_number f) ->
  numbered l -> numbered (update_frame id g l).
Proof.
  intros Hg Hl i f' Hi. unfold update_frame in Hi.
  change (map ?h l) with (h <$> l) in Hi. rewrite list_lookup_fmap in Hi.
  destruct (l !! i) as [f|] eqn:E; [|discriminate]. simpl in Hi.
  injection Hi as <-. rewrite <- (Hl i f E).
  destruct (Nat.eqb (uid f) id); [apply Hg | reflexivity].
Qed.

Lemma build_all_numbered (l : list FrameModel) (st : FrameManager) :
  numbered (frames st) -> numbered (frames (fst (build_all l st))).
Proof.
  revert st. induction l as [|fd l IH]; intros st Hst; cbn [build_all]; [exact Hst|].
  cbn [frames advanced_settings].
  destruct (build_overlay _ _ _ fd) as [o|e] eqn:E; [|exact Hst].
  apply IH. cbn [frames with_frames].
  apply numbered_app; [exact Hst|]. apply build_overlay_inv in E. tauto.
Qed.

(** The frames always carry the numbers 1, 2, ... in list order: creating,
    duplicating, closing, renaming, nudging and importing keep this so, and
    closing restores it even if it did not hold. *)
Theorem numbering_invariant (st : FrameManager) (id : nat) :
  numbered (frames (_on_frame_closing id st))
  /\ (numbered (frames st) ->
      numbered (frames (create_frame st))
      /\ numbered (frames (_handle_duplicate_frame id st))
      /\ (forall n, numbered (frames (_handle_name_change id n st)))
      /\ (forall desk shift direction,
            numbered (frames (_handle_move_frame desk shift id direction st)))
      /\ (forall fs path,
            numbered (frames (fst (import_design_from_path fs path st))))).
Proof.
  split; [apply numbered_renumber|]. intros Hst.
  split; [|split; [|split; [|split]]].
  - unfold create_frame. destruct (Palette.pick (color_idx st)) as [bg border].
    cbn [selected_frame frames advanced_settings].
    destruct (selected_frame st ≫= _) as [sel|]; cbn [frames _mark_dirty select_frame with_frames].
    + destruct (Frame.on_radius_value_changed _ _) as [o|] eqn:E; [|exact Hst].
      cbn [frames _mark_dirty select_frame with_frames].
      apply numbered_app; [exact Hst|].
      apply on_radius_inv in E as (_ & -> & _). reflexivity.
    + apply numbered_app; [exact Hst | reflexivity].
  - unfold _handle_duplicate_frame. destruct (find_frame id (frames st)); [|exact Hst].
    destruct (Palette.pick (color_idx st)) as [bg border]. cbn [frames advanced_settings].
    destruct (Frame.on_radius_value_changed _ _) as [o|] eqn:E; [|exact Hst].
    cbn [frames _mark_dirty select_frame with_frames].
    apply numbered_app; [exact Hst|].
    apply on_radius_inv in E as (_ & -> & _). reflexivity.
  - intros n. unfold _handle_name_change. cbn [frames _mark_dirty with_frames].
    apply numbered_update; [reflexivity | exact Hst].
  - intros desk shift direction. unfold _handle_move_frame.
    destruct (find_frame id (frames st)) as [f|]; [|exact Hst].
    destruct (is_locked f); [exact Hst|]. cbn [frames _mark_dirty with_frames].
    apply numbered_update; [reflexivity | exact Hst].
  - intros fs path. unfold import_design_from_path.
    destruct (ProjectSerializer.load fs path) as [project|]; [|exact Hst].
    set (st0 := mkManager [] _ _ _ _ _ _).
    pose proof (build_all_numbered (pm_frames project) st0) as H.
    destruct (build_all (pm_frames project) st0) as [st1 [e|]].
    + apply H. intros i f Hi. discriminate.
    + cbn [fst frames]. destruct (frames st1) eqn:E; cbn [frames select_frame];
        rewrite <- ?E; apply H; intros i f Hi; discriminate.
Qed.

Lemma numbering_invariant_witness :
  numbered (frames (create_frame (Examples.manager_of Examples.three_frames))).
Proof.
  apply (proj2 (numbering_invariant (Examples.manager_of Examples.three_frames) 0)).
  intros [|[|[|i]]] f Hi; try discriminate; injection Hi as <-; reflexivity.
Defined.






Lemma find_frame_app_l id (l l' : list MeasureFrame) f :
  find_frame id l = Some f -> find_frame id (l ++ l') = Some f.
Proof.
  unfold find_frame. induction l as [|a l IH]; simpl; [discriminate|].
  destruct (Nat.eqb (uid a) id); [auto | exact IH].
Qed.

Lemma find_frame_new (l : list MeasureFrame) (nf : MeasureFrame) :
  exists g, find_frame (uid nf) (l ++ [nf]) = Some g.
Proof.
  unfold find_frame. induction l as [|a l IH]; simpl.
  - rewrite Nat.eqb_refl. eauto.
  - destruct (Nat.eqb (uid a) (uid nf)); [eauto | exact IH].
Qed.

Lemma find_frame_in (l : list MeasureFrame) (f : MeasureFrame) :
  In f l -> exists g, find_frame (uid f) l = Some g.
Proof.
  unfold find_frame. induction l as [|a l IH]; simpl; [tauto|].
  intros [->|Hin].
  - rewrite Nat.eqb_refl. eauto.
  - destruct (Nat.eqb (uid a) (uid f)); [eauto | apply IH, Hin].
Qed.

Lemma find_frame_update id id' g (l : list MeasureFrame) f :
  (forall f, uid (g f) = uid f) ->
  find_frame id' l = Some f ->
  exists f', find_frame id' (update_frame id g l) = Some f'.
Proof.
  intros Hg. unfold find_frame, update_frame.
  induction l as [|a l IH]; simpl; [discriminate|].
  destruct (Nat.eqb (uid a) id') eqn:E.
  - intros _. destruct (Nat.eqb (uid a) id); simpl; rewrite ?Hg, E; eauto.
  - intros H. destruct (Nat.eqb (uid a) id); simpl; rewrite ?Hg, E; apply IH, H.
Qed.

Lemma find_frame_renumber id (l : list MeasureFrame) (start : Z) f :
  find_frame id l = Some f ->
  exists f', find_frame id (renumber_from start l) = Some f'.
Proof.
  unfold find_frame. revert start.
  induction l as [|a l IH]; intros start; simpl; [discriminate|].
  destruct (Nat.eqb (uid a) id); [eauto | apply IH].
Qed.

Lemma find_frame_remove_other id id' (l : list MeasureFrame) f :
  id' <> id ->
  find_frame id' l = Some f -> find_frame id' (remove_frame id l) = Some f.
Proof.
  intros Hne. unfold find_frame. induction l as [|a l IH]; simpl; [discriminate|].
  destruct (Nat.eqb_spec (uid a) id') as [Ha|Ha].
  - intros [= <-]. destruct (Nat.eqb_spec (uid a) id); [congruence|].
    simpl. destruct (Nat.eqb_spec (uid a) id'); [reflexivity | contradiction].
  - intros H. destruct (Nat.eqb_spec (uid a) id); [exact H|].
    simpl. destruct (Nat.eqb_spec (uid a) id'); [contradiction | apply IH, H].
Qed.

(** The selection never dangles: if the selected frame is one of the frames
    (or nothing is selected), this is still so after creating, duplicating,
    closing, renaming, locking or nudging a frame. *)
Theorem selection_stays_valid (st : FrameManager) (id : nat) :
  selection_valid st ->
  selection_valid (create_frame st)
  /\ selection_valid (_handle_duplicate_frame id st)
  /\ selection_valid (_on_frame_closing id st)
  /\ (forall n, selection_valid (_handle_name_change id n st))
  /\ (forall l, selection_valid (_handle_lock_toggle id l st))
  /\ (forall desk shift direction,
        selection_valid (_handle_move_frame desk shift id direction st)).
Proof.
  intros Hst.
  assert (forall g, (forall f, uid (g f) = uid f) ->
            selection_valid (_mark_dirty (with_frames (update_frame id g (frames st)) st)))
    as Hupd.
  { intros g Hg. unfold selection_valid in *. cbn [selected_frame frames _mark_dirty with_frames].
    destruct (selected_frame st) as [s|]; [|exact I].
    destruct Hst as [f Hf]. apply (find_frame_update id s g _ f Hg Hf). }
  split; [|split; [|split; [|split; [|split]]]].
  - unfold create_frame. destruct (Palette.pick (color_idx st)) as [bg border].
    cbn [selected_frame frames advanced_settings].
    destruct (match selected_frame st ≫= _ with Some _ => _ | None => _ end)
      as [o|]; [|exact Hst].
    unfold selection_valid. cbn [selected_frame frames _mark_dirty select_frame with_frames].
    apply find_frame_new.
  - unfold _handle_duplicate_frame. destruct (find_frame id (frames st)); [|exact Hst].
    destruct (Palette.pick (color_idx st)) as [bg border]. cbn [frames advanced_settings].
    destruct (Frame.on_radius_value_changed _ _) as [o|]; [|exact Hst].
    unfold selection_valid. cbn [selected_frame frames _mark_dirty select_frame with_frames].
    apply find_frame_new.
  - unfold _on_frame_closing, selection_valid in *.
    cbn [selected_frame frames _mark_dirty _renumber_frames with_frames].
    destruct (bool_decide (selected_frame st = Some id)) eqn:E.
    + destruct (last (remove_frame id (frames st))) as [f|] eqn:El; [|exact I].
      cbn [fmap option_fmap option_map].
      apply last_Some_elem_of, list_elem_of_In, find_frame_in in El as [g Hg].
      apply (find_frame_renumber _ _ 1 g Hg).
    + destruct (selected_frame st) as [s|]; [|exact I].
      destruct Hst as [f Hf].
      assert (s <> id) as Hne.
      { intros ->. rewrite bool_decide_eq_true_2 in E by reflexivity. discriminate. }
      apply (find_frame_renumber _ _ 1 f).
      apply find_frame_remove_other; assumption.
  - intros n. apply Hupd. reflexivity.
  - intros l. apply Hupd. reflexivity.
  - intros desk shift direction. unfold _handle_move_frame.
    destruct (find_frame id (frames st)) as [f|]; [|exact Hst].
    destruct (is_locked f); [exact Hst|]. apply Hupd. reflexivity.
Qed.

Lemma selection_stays_valid_witness :
  selection_valid (_on_frame_closing 2 (Examples.manager_of Examples.three_frames)).
Proof.
  apply (selection_stays_valid (Examples.manager_of Examples.three_frames) 2).
  exists (Examples.default_frame 2 3). reflexivity.
Defined.

Lemma update_guides_all_equal (m : QRect) (o : list QRect) :
  (forall r, In r o -> r = m) -> SmartGuides.update_guides m o = [].
Proof.
  intros Hall. unfold SmartGuides.update_guides, SmartGuides.collect.
  rewrite collect_skips_equal, filter_none; [reflexivity|].
  intros r Hr. rewrite (Hall r Hr), bool_decide_eq_true_2; reflexivity.
Qed.

(** When a frame's geometry changes, frames that are hidden and frames whose
    geometry coincides with the changed frame's give no guide: if all other
    frames are of these kinds, the overlay gets no guide and is hidden, its
    auto-hide timer runs exactly when the frame is not being dragged, and the
    project is marked dirty. *)
Theorem hidden_or_coinciding_frames_give_no_guides (st : FrameManager) (id : nat)
    (f : MeasureFrame) :
  find_frame id (frames st) = Some f ->
  (forall g, In g (frames st) -> uid g <> id ->
     visible g = false \/ geometry g = geometry f) ->
  _on_geometry_changed id st
  = (_mark_dirty st, Some (mkOverlay [] (negb (is_dragging (drag f))) false)).
Proof.
  intros Hf Hall. unfold _on_geometry_changed, overlay_update. rewrite Hf.
  rewrite update_guides_all_equal; [reflexivity|].
  intros r Hr. apply in_map_iff in Hr as (g & <- & Hg).
  apply filter_In in Hg as [Hg Hp]. apply andb_true_iff in Hp as [Hid Hvis].
  assert (uid g <> id) as Hne.
  { intros E. rewrite E, Nat.eqb_refl in Hid. discriminate. }
  destruct (Hall g Hg Hne) as [Hh|Hh]; [congruence | exact Hh].
Qed.

Lemma hidden_or_coinciding_frames_give_no_guides_witness :
  _on_geometry_changed 0
    (Examples.manager_of
       [Examples.frame1; Frame.setVisible false (Examples.default_frame 1 2)])
  = (_mark_dirty
       (Examples.manager_of
          [Examples.frame1; Frame.setVisible false (Examples.default_frame 1 2)]),
     Some (mkOverlay [] true false)).
Proof.
  apply (hidden_or_coinciding_frames_give_no_guides
           (Examples.manager_of
              [Examples.frame1; Frame.setVisible false (Examples.default_frame 1 2)])
           0 Examples.frame1).
  - reflexivity.
  - intros g [<-|[<-|[]]] Hne; [exfalso; apply Hne; reflexivity | left; reflexivity].
Defined.

End ManagerMore.
